(** * vscode-linter-xo: the language server's request handlers

    A shallow embedding of [src/server/server.ts] (class [LintServer]) and
    the properties of its handlers: the prefix/suffix diff of the formatting
    handler, the cache eviction of the close handler, the guards of the
    formatting, code-action and change handlers. *)

From Stdlib Require Import ZArith Lia Ascii.
From stdpp Require Import gmap strings list fin_maps.

Local Open Scope Z_scope.

(** ** The diff of the formatting handler (server.ts, lines 308-335)

    A JavaScript string is a sequence of code units read by index.  The
    diff never looks inside a code unit, so the unit type [U] is left
    open; it only needs a decidable equality for [===]. *)

Module Diff.
Section DiffEngine.
Context {U : Type} `{EqDecision U}.

Abbreviation text := (list U) (only parsing).

(** [s.length] *)
Definition len (s : text) : Z := Z.of_nat (length s).

(** [s[k]]: [undefined] (here [None]) outside [0 .. s.length - 1]. *)
Definition charAt (s : text) (k : Z) : option U :=
  if k <? 0 then None else s !! Z.to_nat k.

(** [a === b] on two results of indexing. *)
Definition strictEq (a b : option U) : bool := bool_decide (a = b).

(** [s.substring(a, b)]: both indices are clamped to [0 .. s.length] and
    swapped when [a > b]. *)
Definition clampIndex (s : text) (k : Z) : Z := Z.max 0 (Z.min k (len s)).

Definition substring (s : text) (a b : Z) : text :=
  let a' := clampIndex s a in
  let b' := clampIndex s b in
  let lo := Z.min a' b' in
  let hi := Z.max a' b' in
  take (Z.to_nat (hi - lo)) (drop (Z.to_nat lo) s).

(** The first loop, from the value [i] on:
    [while (i < string0.length && i < string1.length
            && string0[i] === string1[i]) ++i;]
    [None] when the fuel is used up before the loop exits. *)
Fixpoint prefixLoop (fuel : nat) (string0 string1 : text) (i : Z) : option Z :=
  match fuel with
  | O => None
  | S fuel' =>
      if (i <? len string0) && (i <? len string1)
         && strictEq (charAt string0 i) (charAt string1 i)
      then prefixLoop fuel' string0 string1 (i + 1)
      else Some i
  end.

(** The second loop, from the value [j] on:
    [while (i + j < string0.length && i + j < string1.length
            && string0[string0.length - j - 1] === string1[string1.length - j - 1]) ++j;] *)
Fixpoint suffixLoop (fuel : nat) (string0 string1 : text) (i j : Z) : option Z :=
  match fuel with
  | O => None
  | S fuel' =>
      if (i + j <? len string0) && (i + j <? len string1)
         && strictEq (charAt string0 (len string0 - j - 1))
                     (charAt string1 (len string1 - j - 1))
      then suffixLoop fuel' string0 string1 i (j + 1)
      else Some j
  end.

(** What the handler puts in its single [TextEdit.replace]: the offsets
    handed to [positionAt] and the replacement text. *)
Record Replacement : Type := mkReplacement {
  startOffset : Z;
  endOffset : Z;
  newText : text
}.

(** Lines 310-331, with the two loops bounded by [fuel]. *)
Definition diffWithFuel (fuel : nat) (string0 string1 : text) : option Replacement :=
  match prefixLoop fuel string0 string1 0 with
  | None => None
  | Some i =>
      match suffixLoop fuel string0 string1 i 0 with
      | None => None
      | Some j =>
          Some {| startOffset := i;
                  endOffset := len string0 - j;
                  newText := substring string1 i (len string1 - j) |}
      end
  end.

(** Each loop runs at most [string0.length] times and then tests its
    condition once more. *)
Definition diff (string0 string1 : text) : option Replacement :=
  diffWithFuel (S (length string0)) string0 string1.

End DiffEngine.
End Diff.

(** ** The server (server.ts, class [LintServer]) *)

Module Server.

(** The types server.ts only passes around: the code units of a document's
    text, the resolved linter module [Xo], a fix [XoFix], and the protocol's
    [Diagnostic] and [CodeAction]. *)
Class Carriers : Type := {
  CodeUnit : Type;
  CodeUnit_eq_dec :: EqDecision CodeUnit;
  Xo : Type;
  XoFix : Type;
  Diagnostic : Type;
  CodeAction : Type
}.

(** A value of type [number] as [Number.isInteger] sees it: an integer, or
    anything else (a fraction, [NaN], an infinity). *)
Inductive JsNumber : Type :=
  | JsInteger (z : Z)
  | JsNonInteger.

(** [Number(x)] for [x : number | undefined]: [Number(undefined)] is [NaN]. *)
Definition Number (x : option JsNumber) : JsNumber :=
  match x with
  | Some n => n
  | None => JsNonInteger
  end.

(** The values a handler can throw or reject with.  [ResponseError] and
    [TypeError] are subclasses of [Error]; [NonError] is a thrown value for
    which [instanceof Error] is false. *)
Inductive JsError : Type :=
  | ResponseError (code : Z) (message : string)
  | TypeError (message : string)
  | OtherError (message : string)
  | NonError (description : string).

Definition instanceofError (error : JsError) : bool :=
  match error with
  | NonError _ => false
  | _ => true
  end.

(** [LSPErrorCodes.RequestCancelled] *)
Definition RequestCancelled : Z := -32800.

(** How a call ends: with a value, or by throwing (for an awaited promise:
    fulfilled, or rejected). *)
Inductive Completion (A : Type) : Type :=
  | Normal (a : A)
  | Throw (error : JsError).
Arguments Normal {A} a.
Arguments Throw {A} error.

(** The state of the promise a request handler returns. *)
Inductive Settlement (R : Type) : Type :=
  | Pending
  | Resolved (value : R)
  | Rejected (reason : JsError).
Arguments Pending {R}.
Arguments Resolved {R} value.
Arguments Rejected {R} reason.

Record Position : Type := { line : Z; character : Z }.

Record Range : Type := { range_start : Position; range_end : Position }.

Record FormatOption : Type := { enable : option bool }.

(** The options of [XoConfig] that server.ts reads. *)
Record XoConfig : Type := {
  format : option FormatOption;
  debounce : option JsNumber
}.

Record ChangeConfigurationParams : Type := { settings_xo : XoConfig }.

Record CancellationToken : Type := { isCancellationRequested : bool }.

Record TextDocumentIdentifier : Type := { identifier_uri : string }.

Record DocumentFormattingParams : Type := { textDocument : TextDocumentIdentifier }.

(** The instance [debounce(this.lintDocument, wait, {maxWait})] returns. *)
Record DebouncedFunc : Type := { wait : Z; maxWait : Z }.

(** [DEFAULT_DEBOUNCE] *)
Definition DEFAULT_DEBOUNCE : Z := 0.

Section Model.
Context `{Carriers}.

Abbreviation text := (list CodeUnit) (only parsing).

Record TextEdit : Type := { range : Range; newText : text }.

Record TextDocument : Type := {
  uri : string;
  languageId : string;
  version : Z;
  getText : text
}.

(** [TextDocuments], the mirror of the open documents.  It is a [Map] from
    URI to document object, kept in insertion order.  The mirror creates an
    object when a document is opened, updates that same object in place at
    every change, and drops it from the [Map] when the document is closed,
    so code that holds on to an object across an [await] sees the later
    updates.  Objects are named by a number; [synced] is the [Map] (of
    several pairs with one URI only the first counts, as a [Map] has a key
    once), [object] the current state of every object. *)
Record TextDocuments : Type := {
  synced : list (string * nat);
  object : nat -> TextDocument
}.

Fixpoint getEntry (uri : string) (entries : list (string * nat)) : option nat :=
  match entries with
  | [] => None
  | (key, o) :: entries' => if decide (key = uri) then Some o else getEntry uri entries'
  end.

(** [documents.get(uri)], as the object it returns. *)
Definition getObject (m : TextDocuments) (uri : string) : option nat :=
  getEntry uri (synced m).

(** [m !! uri]: [documents.get(uri)], as the state that object is in. *)
#[export] Instance TextDocuments_lookup : Lookup string TextDocument TextDocuments :=
  fun uri m => object m <$> getObject m uri.

(** [documents.all()]: the objects of the [Map] in its order, as they are. *)
Definition allDocuments (m : TextDocuments) : list TextDocument :=
  (fun entry => object m entry.2) <$> synced m.

(** The mirror with no document, and with one. *)
#[export] Instance TextDocuments_empty : Empty TextDocuments :=
  {| synced := [];
     object := fun _ => {| uri := ""; languageId := ""; version := 0; getText := [] |} |}.

#[export] Instance TextDocuments_singleton : SingletonM string TextDocument TextDocuments :=
  fun uri d => {| synced := [(uri, 0%nat)]; object := fun _ => d |}.

(** [Partial<TextDocument>], the values of [foldersCache]. *)
Record PartialTextDocument : Type := {
  partial_uri : option string;
  partial_languageId : option string;
  partial_version : option Z;
  partial_getText : option text
}.

Record TextDocumentChangeEvent : Type := { document : TextDocument }.

Record CodeActionParams : Type := {
  codeAction_textDocument : TextDocumentIdentifier;
  context_diagnostics : list Diagnostic
}.

Record DocumentFixes : Type := { edits : list TextEdit }.

Record LintResult : Type := { output : option text }.

Record Report : Type := { results : list LintResult }.

(** The fields of [LintServer] that hold state.  [documents] is the
    [TextDocuments] mirror, keyed by URI. *)
Record LintServer : Type := {
  documents : TextDocuments;
  foldersCache : gmap string PartialTextDocument;
  configurationCache : gmap string XoConfig;
  xoCache : gmap string Xo;
  documentFixes : gmap string (gmap string XoFix);
  hasShownResolutionError : bool;
  currentDebounce : Z;
  lintDocumentDebounced : DebouncedFunc
}.

(** The state the constructor leaves. *)
Definition newLintServer : LintServer := {|
  documents := ∅;
  foldersCache := ∅;
  configurationCache := ∅;
  xoCache := ∅;
  documentFixes := ∅;
  hasShownResolutionError := false;
  currentDebounce := DEFAULT_DEBOUNCE;
  lintDocumentDebounced := {| wait := DEFAULT_DEBOUNCE; maxWait := 350 |}
|}.

(** The calls server.ts makes to the functions it imports and to the
    connection, in the order it makes them. *)
Inductive Event : Type :=
  | CallGetDocumentConfig (textDocument : TextDocumentIdentifier)
  | CallGetDocumentFixes (uri : string)
  | CallGetLintResults (textDocument : TextDocument) (contents : text) (forceFix : bool)
  | CallLintDocuments (documents : list TextDocument)
  | CallLintDocumentDebounced (textDocument : TextDocument)
  | CallApplyEdits (textDocument : TextDocument) (edits : list TextEdit)
  | CallComputeKey (diagnostic : Diagnostic)
  | CallCodeActionsBuild (diagnostic : Diagnostic) (edit : XoFix) (textDocument : TextDocument)
  | CallSendDiagnostics (uri : string) (diagnostics : list Diagnostic)
  | CallLog (message : string)
  | CallLogError (error : JsError).

(** The functions server.ts imports ([./get-document-config.js],
    [./get-document-fixes.js], [./get-lint-results.js],
    [./lint-document.js], [./utils.js], [./code-actions-builder.js],
    [node:path], lodash's debounced function, the connection and
    [TextDocument]).  Those bound to the server read and write its state. *)
Class Collaborators : Type := {
  dirname : string -> string;
  getDocumentConfigImpl :
    LintServer -> TextDocumentIdentifier -> LintServer * Completion (option XoConfig);
  getDocumentFixesImpl :
    LintServer -> string -> LintServer * Completion (option DocumentFixes);
  getLintResultsImpl :
    LintServer -> TextDocument -> text -> bool -> LintServer * Completion Report;
  lintDocumentsImpl :
    LintServer -> list TextDocument -> LintServer * Completion unit;
  lintDocumentDebouncedImpl :
    DebouncedFunc -> LintServer -> TextDocument -> LintServer * Completion unit;
  sendDiagnosticsImpl : string -> list Diagnostic -> Completion unit;
  computeKeyImpl : Diagnostic -> string;
  codeActionsBuildImpl : Diagnostic -> XoFix -> TextDocument -> Completion (list CodeAction);
  applyEditsImpl : TextDocument -> list TextEdit -> Completion text;
  positionAt : TextDocument -> Z -> Position
}.

(** What a handler runs in: the server, the calls made so far, and the
    promise the handler returned for the request. *)
Record World (R : Type) : Type := {
  server : LintServer;
  trace : list Event;
  promise : Settlement R
}.
Arguments server {R} w.
Arguments trace {R} w.
Arguments promise {R} w.

(** A new request: the promise is created pending, nothing is called yet. *)
Definition request {R : Type} (s : LintServer) : World R :=
  {| server := s; trace := []; promise := Pending |}.

(** Code that reads and writes the world and may throw. *)
Definition M (R A : Type) : Type := World R -> World R * Completion A.

#[export] Instance M_ret {R : Type} : MRet (M R) :=
  fun A a w => (w, Normal a).

#[export] Instance M_bind {R : Type} : MBind (M R) :=
  fun A B k m w =>
    match m w with
    | (w', Normal a) => k a w'
    | (w', Throw error) => (w', Throw error)
    end.

(** [try { body } catch (error) { handler }] *)
Definition tryCatch {R A : Type} (body : M R A) (handler : JsError -> M R A) : M R A :=
  fun w =>
    match body w with
    | (w', Normal a) => (w', Normal a)
    | (w', Throw error) => handler error w'
    end.

Definition this {R : Type} : M R LintServer :=
  fun w => (w, Normal (server w)).

Definition setServer {R : Type} (s : LintServer) : M R unit :=
  fun w => ({| server := s; trace := trace w; promise := promise w |}, Normal tt).

Definition emit {R : Type} (e : Event) : M R unit :=
  fun w => ({| server := server w; trace := trace w ++ [e]; promise := promise w |}, Normal tt).

Definition complete {R A : Type} (c : Completion A) : M R A :=
  fun w => (w, c).

(** A call to a function bound to the server: it is recorded, runs on the
    server's state, and its completion is awaited. *)
Definition call {R A : Type} (e : Event) (f : LintServer -> LintServer * Completion A) : M R A :=
  emit e;; s ← this; let (s', c) := f s in setServer s';; complete c.

(** [resolve(value)] and [reject(reason)]: only the first call settles the
    promise. *)
Definition settle {R : Type} (outcome : Settlement R) : M R unit :=
  fun w =>
    match promise w with
    | Pending => ({| server := server w; trace := trace w; promise := outcome |}, Normal tt)
    | _ => (w, Normal tt)
    end.

Definition resolve {R : Type} (value : R) : M R unit := settle (Resolved value).

Definition reject {R : Type} (reason : JsError) : M R unit := settle (Rejected reason).

Context `{!Collaborators}.

(** *** The imported functions, as the handlers call them *)

Definition getDocumentConfig {R : Type} (textDocument : TextDocumentIdentifier)
  : M R (option XoConfig) :=
  call (CallGetDocumentConfig textDocument) (fun s => getDocumentConfigImpl s textDocument).

Definition getDocumentFixes {R : Type} (uri : string) : M R (option DocumentFixes) :=
  call (CallGetDocumentFixes uri) (fun s => getDocumentFixesImpl s uri).

Definition getLintResults {R : Type} (textDocument : TextDocument) (contents : text)
    (forceFix : bool) : M R Report :=
  call (CallGetLintResults textDocument contents forceFix)
       (fun s => getLintResultsImpl s textDocument contents forceFix).

Definition lintDocuments {R : Type} (documents : list TextDocument) : M R unit :=
  call (CallLintDocuments documents) (fun s => lintDocumentsImpl s documents).

(** [this.lintDocumentDebounced(document)]: the instance currently stored
    in the field is the one called. *)
Definition callLintDocumentDebounced {R : Type} (textDocument : TextDocument) : M R unit :=
  call (CallLintDocumentDebounced textDocument)
       (fun s => lintDocumentDebouncedImpl (lintDocumentDebounced s) s textDocument).

Definition sendDiagnostics {R : Type} (uri : string) (diagnostics : list Diagnostic)
  : M R unit :=
  emit (CallSendDiagnostics uri diagnostics);; complete (sendDiagnosticsImpl uri diagnostics).

Definition computeKey {R : Type} (diagnostic : Diagnostic) : M R string :=
  emit (CallComputeKey diagnostic);; mret (computeKeyImpl diagnostic).

Definition codeActionsBuild {R : Type} (diagnostic : Diagnostic) (edit : XoFix)
    (textDocument : TextDocument) : M R (list CodeAction) :=
  emit (CallCodeActionsBuild diagnostic edit textDocument);;
  complete (codeActionsBuildImpl diagnostic edit textDocument).

Definition applyEdits {R : Type} (textDocument : TextDocument) (edits : list TextEdit)
  : M R text :=
  emit (CallApplyEdits textDocument edits);; complete (applyEditsImpl textDocument edits).

Definition log {R : Type} (message : string) : M R unit := emit (CallLog message).

Definition logError {R : Type} (error : JsError) : M R unit := emit (CallLogError error).

(** *** Helpers of the class *)

(** A string in a condition: the empty string is falsy. *)
Definition truthy (s : string) : bool := bool_decide (s ≠ "").

(** [this.documents.all()] *)
Definition documentsAll (s : LintServer) : list TextDocument :=
  allDocuments (documents s).

(** [isDocumentOpen] (lines 179-181):
    [Boolean(document?.uri && this.documents.get(document.uri))]. *)
Definition isDocumentOpen (s : LintServer) (document : TextDocumentIdentifier) : bool :=
  truthy (identifier_uri document)
  && bool_decide (is_Some (documents s !! identifier_uri document)).

(** [!(typeof config === 'undefined' || !config?.format?.enable)] *)
Definition formatEnabled (config : option XoConfig) : bool :=
  match config with
  | Some c =>
      match format c with
      | Some f => match enable f with Some true => true | _ => false end
      | None => false
      end
  | None => false
  end.

(** *** handleDidChangeConfiguration (lines 207-221) *)

Definition updateDebounce (params : ChangeConfigurationParams) (s : LintServer) : LintServer :=
  match Number (debounce (settings_xo params)) with
  | JsInteger n =>
      if bool_decide (n ≠ currentDebounce s)
      then {| documents := documents s;
              foldersCache := foldersCache s;
              configurationCache := configurationCache s;
              xoCache := xoCache s;
              documentFixes := documentFixes s;
              hasShownResolutionError := hasShownResolutionError s;
              currentDebounce := n;
              lintDocumentDebounced := {| wait := n; maxWait := 350 |} |}
      else s
  | JsNonInteger => s
  end.

(** [this.configurationCache.clear()] *)
Definition clearConfigurationCache (s : LintServer) : LintServer :=
  {| documents := documents s;
     foldersCache := foldersCache s;
     configurationCache := ∅;
     xoCache := xoCache s;
     documentFixes := documentFixes s;
     hasShownResolutionError := hasShownResolutionError s;
     currentDebounce := currentDebounce s;
     lintDocumentDebounced := lintDocumentDebounced s |}.

Definition handleDidChangeConfiguration {R : Type} (params : ChangeConfigurationParams)
  : M R unit :=
  s ← this;
  setServer (clearConfigurationCache (updateDebounce params s));;
  s' ← this;
  lintDocuments (documentsAll s').

(** *** handleDidChangeWatchedFiles (lines 226-228) *)

Definition handleDidChangeWatchedFiles {R : Type} : M R unit :=
  s ← this;
  lintDocuments (documentsAll s).

(** *** handleAllFixesRequest (lines 233-251): the task it pushes *)

Definition handleAllFixesRequest (uri : string) : M (option DocumentFixes) unit :=
  tryCatch
    (fixes ← getDocumentFixes uri;
     match fixes with
     | None => resolve None
     | Some fixes => resolve (Some fixes)
     end)
    (fun error => reject error).

(** *** handleDocumentFormattingRequest (lines 256-347): the task it pushes

    [cachedTextDocument] is the document object read at line 270.  Its
    text, URI, language and version are read at lines 292-299, after the
    awaits of [getDocumentConfig] and [getDocumentFixes], and its positions
    at lines 330-331, after the await of [getLintResults]: each time the
    object is read in the state it is in by then. *)

(** Lines 308-335, once the linter's output is known to differ: the diff
    of [originalText] against the output, as one replace edit.  The loops
    of the diff always exit ([DiffSpec.diff_runs]), so [None] does not occur. *)
Definition experimentalReplace (cachedTextDocument : nat) (originalText string1 : text)
  : M (list TextEdit) unit :=
  log "Experimental replace triggered";;
  match Diff.diff originalText string1 with
  | Some d =>
      s ← this;
      let pos0 := positionAt (object (documents s) cachedTextDocument) (Diff.startOffset d) in
      let pos1 := positionAt (object (documents s) cachedTextDocument) (Diff.endOffset d) in
      resolve [ {| range := {| range_start := pos0; range_end := pos1 |};
                   newText := Diff.newText d |} ]
  | None => mret tt
  end.

Definition handleDocumentFormattingRequest (params : DocumentFormattingParams)
    (token : CancellationToken) : M (list TextEdit) unit :=
  tryCatch
    (s ← this;
     if negb (isDocumentOpen s (textDocument params)) then mret tt
     else if isCancellationRequested token then
       reject (ResponseError RequestCancelled "Request was cancelled")
     else
       match getObject (documents s) (identifier_uri (textDocument params)) with
       | None => resolve []
       | Some cachedTextDocument =>
           config ← getDocumentConfig (textDocument params);
           if negb (formatEnabled config) then resolve []
           else
             fixes ← getDocumentFixes (identifier_uri (textDocument params));
             match fixes with
             | None => resolve []
             | Some fixes =>
                 s ← this;
                 let originalText := getText (object (documents s) cachedTextDocument) in
                 let textDocument :=
                   {| uri := uri (object (documents s) cachedTextDocument);
                      languageId := languageId (object (documents s) cachedTextDocument);
                      version := version (object (documents s) cachedTextDocument);
                      getText := originalText |} in
                 editedContent ← applyEdits textDocument (edits fixes);
                 report ← getLintResults textDocument editedContent true;
                 match results report with
                 | [] =>
                     complete (Throw (TypeError
                       "Cannot read properties of undefined (reading 'output')"))
                 | result0 :: _ =>
                     match output result0 with
                     | Some string1 =>
                         if bool_decide (string1 ≠ []) && bool_decide (string1 ≠ editedContent)
                         then experimentalReplace cachedTextDocument originalText string1
                         else resolve (edits fixes)
                     | None => resolve (edits fixes)
                     end
                 end
             end
       end)
    (fun error =>
       (if instanceofError error then logError error else mret tt);;
       reject error).

(** *** handleCodeActionRequest (lines 353-398): the task it pushes *)

Definition handleCodeActionRequest (params : CodeActionParams) (token : CancellationToken)
  : M (list CodeAction) unit :=
  tryCatch
    (match context_diagnostics params with
     | [] => resolve []
     | diagnostic :: _ =>
         let uri := identifier_uri (codeAction_textDocument params) in
         if negb (truthy uri) then resolve []
         else if isCancellationRequested token then
           reject (ResponseError RequestCancelled "Request got cancelled")
         else
           s ← this;
           let documentEdits := documentFixes s !! uri in
           let textDocument := documents s !! uri in
           edit ← match documentEdits with
                  | None => mret None
                  | Some fixes => key ← computeKey diagnostic; mret (fixes !! key)
                  end;
           match edit, textDocument with
           | Some edit, Some textDocument =>
               actions ← codeActionsBuild diagnostic edit textDocument;
               resolve actions
           | _, _ => resolve []
           end
     end)
    (fun error =>
       (if instanceofError error then logError error else mret tt);;
       reject error).

(** *** handleDocumentsOnDidChangeContent (lines 405-415): the task it pushes *)

Definition handleDocumentsOnDidChangeContent {R : Type} (event : TextDocumentChangeEvent)
  : M R unit :=
  tryCatch
    (s ← this;
     if bool_decide (Some (version (document event))
                     ≠ (version <$> documents s !! uri (document event)))
     then mret tt
     else callLintDocumentDebounced (document event))
    (fun error => if instanceofError error then logError error else mret tt).

(** *** handleDocumentsOnDidClose (lines 422-439) *)

(** The set built at lines 423-425: the [path.dirname] of every open
    document's URI. *)
Definition openFolders (s : LintServer) : gset string :=
  list_to_set ((fun document => dirname (uri document)) <$> documentsAll s).

(** The body of the loop (lines 428-432). *)
Definition evictFolder (folders : gset string) (s : LintServer) (folder : string)
  : LintServer :=
  if decide (folder ∈ folders) then s
  else {| documents := documents s;
          foldersCache := delete folder (foldersCache s);
          configurationCache := delete folder (configurationCache s);
          xoCache := delete folder (xoCache s);
          documentFixes := documentFixes s;
          hasShownResolutionError := hasShownResolutionError s;
          currentDebounce := currentDebounce s;
          lintDocumentDebounced := lintDocumentDebounced s |}.

(** The loop (lines 427-433) over the keys of [foldersCache].  A [Map]
    iterator visits every key that is present when it reaches it, and the
    body deletes only the key being visited, so every key of the map at
    the start is visited once. *)
Definition evictFolders (folders : gset string) (s : LintServer) : LintServer :=
  foldl (evictFolder folders) s (map_to_list (foldersCache s)).*1.

Definition handleDocumentsOnDidClose {R : Type} (event : TextDocumentChangeEvent)
  : M R unit :=
  s ← this;
  let folders := openFolders s in
  setServer (evictFolders folders s);;
  sendDiagnostics (uri (document event)) [].

(** *** Applying an edit

    How one edit of the protocol changes a text: the text before the start
    of its range, its new text, and the text from the end of its range on.
    [offsetAt] is the conversion of the document's positions to offsets. *)
Definition applyTextEdit (offsetAt : Position -> Z) (content : text) (e : TextEdit) : text :=
  Diff.substring content 0 (offsetAt (range_start (range e)))
    ++ newText e
    ++ Diff.substring content (offsetAt (range_end (range e))) (Diff.len content).

(** *** Reading a trace *)

(** The fix pipeline of the formatting handler: [getDocumentFixes] and
    [getLintResults]. *)
Definition fixPipelineCall (e : Event) : bool :=
  match e with
  | CallGetDocumentFixes _ | CallGetLintResults _ _ _ => true
  | _ => false
  end.

(** The diagnostics whose fix key was computed for a lookup in the
    document's fix map, in order. *)
Definition keyLookups (tr : list Event) : list Diagnostic :=
  omap (fun e => match e with CallComputeKey d => Some d | _ => None end) tr.

End Model.

Arguments TextEdit {_}.
Arguments TextDocument {_}.
Arguments TextDocuments {_}.
Arguments PartialTextDocument {_}.
Arguments TextDocumentChangeEvent {_}.
Arguments CodeActionParams {_}.
Arguments DocumentFixes {_}.
Arguments LintResult {_}.
Arguments Report {_}.
Arguments LintServer {_}.
Arguments Event {_}.
Arguments Collaborators {_}.
Arguments World {_} R.
Arguments server {_ R} w.
Arguments trace {_ R} w.
Arguments promise {_ R} w.
Arguments M {_} R A.


(** ** A concrete server, for the examples *)

(** [path.dirname] of [node:path] on POSIX, for the URIs of the examples:
    the path up to its last separator, trailing separators not counted. *)
Definition isSlash (c : option ascii) : bool := bool_decide (c = Some "/"%char).

Fixpoint dirnameEnd (path : string) (i : nat) (matchedSlash : bool) : option nat :=
  match i with
  | O => None
  | S i' =>
      if isSlash (String.get i path)
      then if matchedSlash then dirnameEnd path i' true else Some i
      else dirnameEnd path i' false
  end.

Definition posixDirname (path : string) : string :=
  if bool_decide (path = "") then "."
  else
    let hasRoot := isSlash (String.get 0 path) in
    match dirnameEnd path (String.length path - 1) true with
    | None => if hasRoot then "/" else "."
    | Some e => if hasRoot && (e =? 1)%nat then "//" else String.substring 0 e path
    end.

(** Text in 8-bit code units; a linter module, a fix and a diagnostic are
    named by a string; a code action by its diagnostic and fix. *)
#[local] Instance sampleCarriers : Carriers := {|
  CodeUnit := ascii;
  CodeUnit_eq_dec := Ascii.eq_dec;
  Xo := string;
  XoFix := string;
  Diagnostic := string;
  CodeAction := string * string
|}.

(** Collaborators that leave the server alone: the configuration is read
    from the cache of the document's folder, no fixes are known, the linter
    returns no output. *)
#[local] Instance sampleCollaborators : Collaborators := {|
  dirname := posixDirname;
  getDocumentConfigImpl s textDocument :=
    (s, Normal (configurationCache s !! posixDirname (identifier_uri textDocument)));
  getDocumentFixesImpl s uri := (s, Normal None);
  getLintResultsImpl s textDocument contents forceFix :=
    (s, Normal {| results := [ {| output := None |} ] |});
  lintDocumentsImpl s documents := (s, Normal tt);
  lintDocumentDebouncedImpl debounced s textDocument := (s, Normal tt);
  sendDiagnosticsImpl uri diagnostics := Normal tt;
  computeKeyImpl diagnostic := diagnostic;
  codeActionsBuildImpl diagnostic edit textDocument := Normal [ (diagnostic, edit) ];
  applyEditsImpl textDocument edits := Normal (getText textDocument);
  positionAt textDocument offset := {| line := 0; character := offset |}
|}.

Definition indexUri : string := "file:///work/app/index.js".

Definition appFolder : string := "file:///work/app".

Definition indexDocument : TextDocument :=
  {| uri := indexUri;
     languageId := "javascript";
     version := 3;
     getText := String.list_ascii_of_string "let a" |}.

(** Format-on-save switched off, the default of [xo.format.enable]. *)
Definition formatOff : XoConfig :=
  {| format := Some {| enable := Some false |}; debounce := None |}.

Definition indexFixes : gmap string string := {[ "semi@0:5" := "insert ;" ]}.

(** The server while index.js is open and linted. *)
Definition openServer : LintServer :=
  {| documents := {[ indexUri := indexDocument ]};
     foldersCache := {[ appFolder := {| partial_uri := Some "file:///work";
                                        partial_languageId := None;
                                        partial_version := None;
                                        partial_getText := None |} ]};
     configurationCache := {[ appFolder := formatOff ]};
     xoCache := {[ appFolder := "xo" ]};
     documentFixes := {[ indexUri := indexFixes ]};
     hasShownResolutionError := false;
     currentDebounce := 0;
     lintDocumentDebounced := {| wait := 0; maxWait := 350 |} |}.

(** The same server once the document mirror has dropped index.js, as the
    close handler finds it. *)
Definition closingServer : LintServer :=
  {| documents := ∅;
     foldersCache := foldersCache openServer;
     configurationCache := configurationCache openServer;
     xoCache := xoCache openServer;
     documentFixes := documentFixes openServer;
     hasShownResolutionError := false;
     currentDebounce := 0;
     lintDocumentDebounced := {| wait := 0; maxWait := 350 |} |}.

(** A server with no open document whose configuration cache holds an
    entry for a folder that [foldersCache] has no key for. *)
Definition unindexedServer : LintServer :=
  {| documents := ∅;
     foldersCache := ∅;
     configurationCache := {[ appFolder := formatOff ]};
     xoCache := {[ "file:///work" := "xo" ]};
     documentFixes := ∅;
     hasShownResolutionError := false;
     currentDebounce := 0;
     lintDocumentDebounced := {| wait := 0; maxWait := 350 |} |}.

Definition closeIndex : TextDocumentChangeEvent := {| document := indexDocument |}.

Definition formatIndex : DocumentFormattingParams :=
  {| textDocument := {| identifier_uri := indexUri |} |}.

Definition cancelled : CancellationToken := {| isCancellationRequested := true |}.

Definition notCancelled : CancellationToken := {| isCancellationRequested := false |}.

(** *** The text-document library, for the examples

    [positionAt] and [offsetAt] of vscode-languageserver-textdocument
    (^1.0.8 in package.json), which the handlers take as a parameter.  A
    line ends at a LF, at a CR, or at a CR LF taken as one break; a position
    never lies behind a line-break character of its own line, so no
    position names the offset between a CR and its LF. *)
Definition isEOL (c : ascii) : bool :=
  bool_decide (c = "013"%char) || bool_decide (c = "010"%char).

(** The offsets at which a line starts after a break, for the text that
    begins at offset [i]. *)
Fixpoint lineBreaksFrom (content : list ascii) (i : Z) : list Z :=
  match content with
  | [] => []
  | ch :: rest =>
      if bool_decide (ch = "013"%char) then
        match rest with
        | ch' :: rest' =>
            if bool_decide (ch' = "010"%char)
            then (i + 2) :: lineBreaksFrom rest' (i + 2)
            else (i + 1) :: lineBreaksFrom rest (i + 1)
        | [] => [i + 1]
        end
      else if bool_decide (ch = "010"%char) then (i + 1) :: lineBreaksFrom rest (i + 1)
      else lineBreaksFrom rest (i + 1)
  end.

Definition computeLineOffsets (content : list ascii) : list Z :=
  0 :: lineBreaksFrom content 0.

(** [while (offset > lineOffset && isEOL(content.charCodeAt(offset - 1))) offset--;] *)
Fixpoint ensureBeforeEOLLoop (fuel : nat) (content : list ascii) (offset lineOffset : Z) : Z :=
  match fuel with
  | O => offset
  | S fuel' =>
      if (lineOffset <? offset)
         && match Diff.charAt content (offset - 1) with
            | Some c => isEOL c
            | None => false
            end
      then ensureBeforeEOLLoop fuel' content (offset - 1) lineOffset
      else offset
  end.

Definition ensureBeforeEOL (content : list ascii) (offset lineOffset : Z) : Z :=
  ensureBeforeEOLLoop (Z.to_nat (offset - lineOffset)) content offset lineOffset.

(** The line of an offset is the last line that starts at or before it
    (the library finds it by bisection of the line offsets). *)
Definition libPositionAt (textDocument : TextDocument) (offset : Z) : Position :=
  let content := getText textDocument in
  let offset := Z.max (Z.min offset (Diff.len content)) 0 in
  let lineOffsets := computeLineOffsets content in
  let line := Z.of_nat (length (filter (fun o => o <= offset) lineOffsets)) - 1 in
  let lineOffset := default 0 (lineOffsets !! Z.to_nat line) in
  {| line := line; character := ensureBeforeEOL content offset lineOffset - lineOffset |}.

Definition libOffsetAt (textDocument : TextDocument) (position : Position) : Z :=
  let content := getText textDocument in
  let lineOffsets := computeLineOffsets content in
  if Z.of_nat (length lineOffsets) <=? line position then Diff.len content
  else if line position <? 0 then 0
  else
    let lineOffset := default 0 (lineOffsets !! Z.to_nat (line position)) in
    if character position <=? 0 then lineOffset
    else
      let nextLineOffset :=
        if line position + 1 <? Z.of_nat (length lineOffsets)
        then default 0 (lineOffsets !! Z.to_nat (line position + 1))
        else Diff.len content in
      ensureBeforeEOL content (Z.min (lineOffset + character position) nextLineOffset)
                      lineOffset.

(** *** A document with CR LF line breaks, linted for LF *)

Definition crlfText : list ascii := ["a"; "013"; "010"; "b"; "013"; "010"]%char.

Definition lfText : list ascii := ["a"; "010"; "b"; "010"]%char.

Definition crlfDocument : TextDocument :=
  {| uri := indexUri; languageId := "javascript"; version := 1; getText := crlfText |}.

Definition fixOnSave : XoConfig :=
  {| format := Some {| enable := Some true |}; debounce := None |}.

Definition crlfServer : LintServer :=
  {| documents := {[ indexUri := crlfDocument ]};
     foldersCache := ∅;
     configurationCache := {[ appFolder := fixOnSave ]};
     xoCache := ∅;
     documentFixes := ∅;
     hasShownResolutionError := false;
     currentDebounce := 0;
     lintDocumentDebounced := {| wait := 0; maxWait := 350 |} |}.

(** The fix list corrects the first line break only; the linter's own
    output has both corrected. *)
Definition firstBreakFix : DocumentFixes :=
  {| edits := [ {| range := {| range_start := {| line := 0; character := 1 |};
                               range_end := {| line := 1; character := 0 |} |};
                   newText := ["010"%char] |} ] |}.

Definition unixLinebreaks : Collaborators :=
  {| dirname := posixDirname;
     getDocumentConfigImpl s textDocument :=
       (s, Normal (configurationCache s !! posixDirname (identifier_uri textDocument)));
     getDocumentFixesImpl s uri := (s, Normal (Some firstBreakFix));
     getLintResultsImpl s textDocument contents forceFix :=
       (s, Normal {| results := [ {| output := Some lfText |} ] |});
     lintDocumentsImpl s documents := (s, Normal tt);
     lintDocumentDebouncedImpl debounced s textDocument := (s, Normal tt);
     sendDiagnosticsImpl uri diagnostics := Normal tt;
     computeKeyImpl diagnostic := diagnostic;
     codeActionsBuildImpl diagnostic edit textDocument := Normal [];
     applyEditsImpl textDocument edits :=
       match edits with
       | [e] => Normal (applyTextEdit (libOffsetAt textDocument) (getText textDocument) e)
       | _ => Normal (getText textDocument)
       end;
     positionAt := libPositionAt |}.

End Server.

(** * Properties of the diff *)

Module DiffSpec.
Import Diff.

Section DiffEngine.
Context {U : Type} `{EqDecision U}.

Abbreviation text := (list U) (only parsing).

(** *** The loops terminate and keep their invariants *)

Lemma charAt_Some (s : text) (k : Z) :
  0 <= k < len s -> exists x, charAt s k = Some x /\ s !! Z.to_nat k = Some x.
Proof.
  intros Hk. unfold charAt, len in *.
  destruct (Z.ltb_spec k 0) as [?|_]; [lia|].
  destruct (lookup_lt_is_Some_2 s (Z.to_nat k)) as [x Hx]; [lia|].
  exists x. by rewrite Hx.
Qed.

Lemma prefixLoop_spec (fuel : nat) (string0 string1 : text) (i : Z) :
  0 <= i <= len string0 -> i <= len string1 ->
  take (Z.to_nat i) string0 = take (Z.to_nat i) string1 ->
  len string0 - i < Z.of_nat fuel ->
  exists i', prefixLoop fuel string0 string1 i = Some i'
    /\ i <= i' <= len string0 /\ i' <= len string1
    /\ take (Z.to_nat i') string0 = take (Z.to_nat i') string1
    /\ (i' = len string0 \/ i' = len string1
        \/ charAt string0 i' <> charAt string1 i').
Proof.
  revert i. induction fuel as [|fuel IH]; intros i Hi0 Hi1 Hpre Hfuel; [lia|].
  cbn [prefixLoop].
  destruct (Z.ltb_spec i (len string0)) as [H0|H0]; cbn [andb];
    [|exists i; repeat split; try (lia || done); left; lia].
  destruct (Z.ltb_spec i (len string1)) as [H1|H1]; cbn [andb];
    [|exists i; repeat split; try (lia || done); right; left; lia].
  unfold strictEq. case_bool_decide as Heq;
    [|exists i; repeat split; try (lia || done); by right; right].
  destruct (charAt_Some string0 i) as (x & Hx & Hx'); [lia|].
  destruct (charAt_Some string1 i) as (y & Hy & Hy'); [lia|].
  assert (x = y) as <- by congruence.
  destruct (IH (i + 1)) as (i' & Hrun & ? & ? & ? & ?); [lia|lia| |lia|].
  - replace (Z.to_nat (i + 1)) with (S (Z.to_nat i)) by lia.
    rewrite (take_S_r string0 _ x), (take_S_r string1 _ x) by done.
    by rewrite Hpre.
  - exists i'. repeat split; (lia || done).
Qed.

Lemma suffixLoop_spec (fuel : nat) (string0 string1 : text) (i j : Z) :
  0 <= i -> 0 <= j -> i + j <= len string0 -> i + j <= len string1 ->
  drop (Z.to_nat (len string0 - j)) string0
    = drop (Z.to_nat (len string1 - j)) string1 ->
  len string0 - (i + j) < Z.of_nat fuel ->
  exists j', suffixLoop fuel string0 string1 i j = Some j'
    /\ j <= j' /\ i + j' <= len string0 /\ i + j' <= len string1
    /\ drop (Z.to_nat (len string0 - j')) string0
         = drop (Z.to_nat (len string1 - j')) string1
    /\ (i + j' = len string0 \/ i + j' = len string1
        \/ charAt string0 (len string0 - j' - 1) <> charAt string1 (len string1 - j' - 1)).
Proof.
  revert j. induction fuel as [|fuel IH]; intros j Hi Hj H0 H1 Hsuf Hfuel; [lia|].
  cbn [suffixLoop].
  destruct (Z.ltb_spec (i + j) (len string0)) as [L0|L0]; cbn [andb];
    [|exists j; repeat split; try (lia || done); left; lia].
  destruct (Z.ltb_spec (i + j) (len string1)) as [L1|L1]; cbn [andb];
    [|exists j; repeat split; try (lia || done); right; left; lia].
  unfold strictEq. case_bool_decide as Heq;
    [|exists j; repeat split; try (lia || done); by right; right].
  destruct (charAt_Some string0 (len string0 - j - 1)) as (x & Hx & Hx'); [lia|].
  destruct (charAt_Some string1 (len string1 - j - 1)) as (y & Hy & Hy'); [lia|].
  assert (x = y) as <- by congruence.
  destruct (IH (j + 1)) as (j' & Hrun & ? & ? & ? & ? & ?); [lia|lia|lia|lia| |lia|].
  - replace (len string0 - (j + 1)) with (len string0 - j - 1) by lia.
    replace (len string1 - (j + 1)) with (len string1 - j - 1) by lia.
    rewrite (drop_S string0 x _ Hx'), (drop_S string1 x _ Hy').
    replace (S (Z.to_nat (len string0 - j - 1))) with (Z.to_nat (len string0 - j)) by lia.
    replace (S (Z.to_nat (len string1 - j - 1))) with (Z.to_nat (len string1 - j)) by lia.
    by rewrite Hsuf.
  - exists j'. repeat split; (lia || done).
Qed.

Lemma substring_in_range (s : text) (a b : Z) :
  0 <= a <= b -> b <= len s ->
  substring s a b = take (Z.to_nat (b - a)) (drop (Z.to_nat a) s).
Proof.
  intros Ha Hb. unfold substring, clampIndex.
  replace (Z.max 0 (Z.min a (len s))) with a by lia.
  replace (Z.max 0 (Z.min b (len s))) with b by lia.
  by replace (Z.min a b) with a by lia; replace (Z.max a b) with b by lia.
Qed.

(** The two loops exit within the fuel [diff] gives them.  [i] is the
    length of the longest common prefix: the strings agree on their first
    [i] code units and differ at index [i], unless one of them ends there.
    [j] is the length of the common suffix scanned: the last [j] code units
    agree, and the scan stopped at a difference or at [i + j] reaching the
    length of one of the strings. *)
Lemma diff_runs (string0 string1 : text) :
  exists i j,
    diff string0 string1
      = Some {| startOffset := i;
                endOffset := len string0 - j;
                newText := substring string1 i (len string1 - j) |}
    /\ (0 <= i /\ 0 <= j /\ i + j <= len string0 /\ i + j <= len string1)
    /\ (take (Z.to_nat i) string0 = take (Z.to_nat i) string1
        /\ (i = len string0 \/ i = len string1 \/ charAt string0 i <> charAt string1 i))
    /\ (drop (Z.to_nat (len string0 - j)) string0
          = drop (Z.to_nat (len string1 - j)) string1
        /\ (i + j = len string0 \/ i + j = len string1
            \/ charAt string0 (len string0 - j - 1)
               <> charAt string1 (len string1 - j - 1))).
Proof.
  unfold diff, diffWithFuel.
  destruct (prefixLoop_spec (S (length string0)) string0 string1 0)
    as (i & -> & Hi0 & Hi1 & Hpre & Hlongest);
    [unfold len; lia..|done|unfold len; lia|].
  destruct (suffixLoop_spec (S (length string0)) string0 string1 i 0)
    as (j & -> & Hj & Hj0 & Hj1 & Hsuf & Hstop);
    [unfold len in *; lia..| |unfold len in *; lia|].
  - rewrite !Z.sub_0_r. unfold len. rewrite !Nat2Z.id.
    by rewrite !drop_all.
  - exists i, j. repeat split; (lia || done).
Qed.

(** X28 (the diff at the level of offsets).  For all strings [A] (the
    original text) and [B] (the linter's output) the two loops of the
    formatting handler exit with [i], the length of the longest common
    prefix of [A] and [B], and [j], the length of the common suffix scanned
    while [i + j] exceeds neither length; and the text of [A] before offset
    [i], the new text [B.substring(i, |B| - j)] and the text of [A] from
    offset [|A| - j] on make up exactly [B].  This is about code-unit
    offsets only: the edit the handler returns is addressed by the
    positions [positionAt] gives for the two offsets. *)
Theorem diff_splices_to_output (A B : text) :
  exists i j,
    diff A B = Some {| startOffset := i;
                       endOffset := len A - j;
                       newText := substring B i (len B - j) |}
    /\ (0 <= i /\ 0 <= j /\ i + j <= len A /\ i + j <= len B)
    /\ (take (Z.to_nat i) A = take (Z.to_nat i) B
        /\ (i = len A \/ i = len B \/ charAt A i <> charAt B i))
    /\ (drop (Z.to_nat (len A - j)) A = drop (Z.to_nat (len B - j)) B
        /\ (i + j = len A \/ i + j = len B
            \/ charAt A (len A - j - 1) <> charAt B (len B - j - 1)))
    /\ substring A 0 i ++ substring B i (len B - j) ++ substring A (len A - j) (len A)
       = B.
Proof.
  destruct (diff_runs A B)
    as (i & j & Hrun & (Hi & Hj & HA & HB) & (Hpre & Hlongest) & (Hsuf & Hstop)).
  exists i, j. do 4 (split; [done|]).
  rewrite !substring_in_range by lia.
  rewrite Z.sub_0_r. change (Z.to_nat 0) with 0%nat. rewrite drop_0, Hpre.
  rewrite (take_ge (drop _ A)) by (rewrite length_drop; unfold len; lia).
  rewrite Hsuf.
  replace (Z.to_nat (len B - j)) with (Z.to_nat i + Z.to_nat (len B - j - i))%nat by lia.
  rewrite <- drop_drop, (take_drop _ (drop _ B)).
  apply take_drop.
Qed.

End DiffEngine.

(** The concrete case of the specification: ["const x=1"] against
    ["const x = 1;"] has the common prefix ["const x"] (7 code units) and
    no common suffix, so ["=1"] is replaced by [" = 1;"]. *)
Example diff_const_x :
  let A := String.list_ascii_of_string "const x=1" in
  let B := String.list_ascii_of_string "const x = 1;" in
  diff A B = Some {| startOffset := 7; endOffset := 9;
                     newText := String.list_ascii_of_string " = 1;" |}.
Proof. vm_compute; reflexivity. Qed.

(** Identical strings: the empty span at the end of the text. *)
Example diff_identical :
  let A := String.list_ascii_of_string "let a;" in
  diff A A = Some {| startOffset := 6; endOffset := 6; newText := [] |}.
Proof. vm_compute; reflexivity. Qed.

(** A shared prefix and suffix that overlap in the shorter string: the
    suffix scan stops at [i + j = |B|]. *)
Example diff_overlap :
  let A := String.list_ascii_of_string "aaa" in
  let B := String.list_ascii_of_string "aa" in
  diff A B = Some {| startOffset := 2; endOffset := 3; newText := [] |}.
Proof. vm_compute; reflexivity. Qed.

End DiffSpec.

(** * Properties of the handlers *)

Module ServerSpec.
Import Server.

Section Properties.
Context `{Collaborators}.

(** Unfolds the monad so that a run of a handler computes. *)
Ltac run :=
  unfold getDocumentConfig, getDocumentFixes, getLintResults, lintDocuments,
    callLintDocumentDebounced, sendDiagnostics, computeKey, codeActionsBuild,
    applyEdits, log, logError, call, resolve, reject, settle, tryCatch,
    emit, this, setServer, complete, request, mbind, M_bind, mret, M_ret;
  cbn.

(** C8 (empty diagnostics on close).  For every close event, in every
    state of the documents and of the caches, the handler makes exactly one
    call to the connection: it publishes the empty diagnostics array for
    the URI of the closed document. *)
Theorem close_publishes_empty_diagnostics {R : Type} (event : TextDocumentChangeEvent)
    (w : World R) :
  trace (handleDocumentsOnDidClose event w).1
    = trace w ++ [CallSendDiagnostics (uri (document event)) []].
Proof.
  unfold handleDocumentsOnDidClose. run.
  reflexivity.
Qed.

(** *** The eviction loop of the close handler *)

Lemma elem_of_keys {V : Type} (m : gmap string V) (k : string) :
  k ∈ (map_to_list m).*1 <-> is_Some (m !! k).
Proof.
  rewrite list_elem_of_fmap. split.
  - intros ([k' v] & -> & Hin). apply elem_of_map_to_list in Hin. by exists v.
  - intros [v Hv]. exists (k, v). split; [done|]. by apply elem_of_map_to_list.
Qed.

Lemma elem_of_openFolders (s : LintServer) (folder : string) :
  folder ∈ openFolders s
  <-> exists document, document ∈ documentsAll s /\ folder = dirname (uri document).
Proof.
  unfold openFolders. rewrite elem_of_list_to_set, list_elem_of_fmap.
  split; intros (d & ? & ?); exists d; done.
Qed.

Lemma evictFolder_frame (folders : gset string) (s : LintServer) (folder : string) :
  documents (evictFolder folders s folder) = documents s
  /\ documentFixes (evictFolder folders s folder) = documentFixes s
  /\ hasShownResolutionError (evictFolder folders s folder) = hasShownResolutionError s
  /\ currentDebounce (evictFolder folders s folder) = currentDebounce s
  /\ lintDocumentDebounced (evictFolder folders s folder) = lintDocumentDebounced s.
Proof. unfold evictFolder. by case_decide. Qed.

(** After the loop over the keys [l], an entry is gone from each of the
    three caches exactly when its key was visited and is no open folder. *)
Lemma foldl_evictFolder (folders : gset string) (l : list string) (s : LintServer) :
  let s' := foldl (evictFolder folders) s l in
  (documents s' = documents s /\ documentFixes s' = documentFixes s)
  /\ forall k,
       let gone := bool_decide (k ∈ l /\ k ∉ folders) in
       foldersCache s' !! k = (if gone then None else foldersCache s !! k)
       /\ xoCache s' !! k = (if gone then None else xoCache s !! k)
       /\ configurationCache s' !! k = (if gone then None else configurationCache s !! k).
Proof.
  revert s. induction l as [|folder l IH]; intros s; cbn [foldl].
  - split; [done|]. intros k.
    rewrite bool_decide_eq_false_2; [done|]. rewrite elem_of_nil. tauto.
  - destruct (IH (evictFolder folders s folder)) as [[Hd Hf] Hk].
    destruct (evictFolder_frame folders s folder) as (Hd' & Hf' & _).
    split; [split; congruence|].
    intros k. specialize (Hk k). cbn zeta in Hk.
    destruct Hk as (-> & -> & ->).
    clear IH Hd Hf Hd' Hf'.
    assert (k ∈ folder :: l <-> k = folder \/ k ∈ l) as Hcons by apply elem_of_cons.
    unfold evictFolder. destruct (decide (folder ∈ folders)) as [Hin|Hnin]; cbn.
    + repeat split; repeat case_bool_decide; try done;
        exfalso; intuition (subst; tauto).
    + rewrite !lookup_delete.
      repeat split; repeat case_bool_decide; repeat case_decide; try done;
        exfalso; intuition (subst; tauto).
Qed.

Lemma evictFolders_spec (s : LintServer) :
  let s' := evictFolders (openFolders s) s in
  (documents s' = documents s /\ documentFixes s' = documentFixes s)
  /\ forall k,
       let gone := bool_decide (is_Some (foldersCache s !! k) /\ k ∉ openFolders s) in
       foldersCache s' !! k = (if gone then None else foldersCache s !! k)
       /\ xoCache s' !! k = (if gone then None else xoCache s !! k)
       /\ configurationCache s' !! k = (if gone then None else configurationCache s !! k).
Proof.
  unfold evictFolders.
  destruct (foldl_evictFolder (openFolders s) (map_to_list (foldersCache s)).*1 s)
    as [Hframe Hk].
  split; [done|]. intros k. specialize (Hk k). cbn zeta in Hk |- *.
  rewrite (bool_decide_ext _ (is_Some (foldersCache s !! k) /\ k ∉ openFolders s)) in Hk
    by (by rewrite elem_of_keys).
  done.
Qed.

Lemma handleDocumentsOnDidClose_server {R : Type} (event : TextDocumentChangeEvent)
    (w : World R) :
  server (handleDocumentsOnDidClose event w).1
    = evictFolders (openFolders (server w)) (server w).
Proof. unfold handleDocumentsOnDidClose. run. reflexivity. Qed.

(** C2, as the code has it.  The close handler leaves the per-document
    fix map unchanged: the entry of the closed document is not deleted.
    What it deletes is the three cache entries (root marker, linter module,
    configuration) of every key of [foldersCache] that is the
    [path.dirname] of no open document's URI. *)
Theorem close_keeps_documentFixes {R : Type} (event : TextDocumentChangeEvent)
    (w : World R) :
  let s := server w in
  let s' := server (handleDocumentsOnDidClose event w).1 in
  documentFixes s' = documentFixes s
  /\ forall folder,
       is_Some (foldersCache s !! folder) ->
       (forall document, document ∈ documentsAll s -> dirname (uri document) ≠ folder) ->
       foldersCache s' !! folder = None
       /\ xoCache s' !! folder = None
       /\ configurationCache s' !! folder = None.
Proof.
  cbn zeta. rewrite handleDocumentsOnDidClose_server.
  destruct (evictFolders_spec (server w)) as [[_ Hfix] Hk].
  split; [done|]. intros folder Hcached Hclosed.
  specialize (Hk folder). cbn zeta in Hk.
  rewrite bool_decide_eq_true_2 in Hk; [done|].
  split; [done|]. rewrite elem_of_openFolders.
  intros (document & Hin & ->). by eapply Hclosed.
Qed.

(** C10, as the code has it.  After the close handler, every key left in
    [foldersCache] is the [path.dirname] of an open document's URI; a key
    left in [xoCache] or [configurationCache] is one too, or it was no key
    of [foldersCache] when the handler started, and the entries under such
    keys are all kept.  With no document open, [foldersCache] is empty. *)
Theorem close_remaining_keys {R : Type} (event : TextDocumentChangeEvent) (w : World R) :
  let s := server w in
  let s' := server (handleDocumentsOnDidClose event w).1 in
  let openFolder (k : string) :=
    exists document, document ∈ documentsAll s' /\ k = dirname (uri document) in
  (forall k, is_Some (foldersCache s' !! k) -> openFolder k)
  /\ (forall k, is_Some (xoCache s' !! k) -> openFolder k \/ foldersCache s !! k = None)
  /\ (forall k, is_Some (configurationCache s' !! k) ->
        openFolder k \/ foldersCache s !! k = None)
  /\ (forall k, foldersCache s !! k = None ->
        xoCache s' !! k = xoCache s !! k
        /\ configurationCache s' !! k = configurationCache s !! k)
  /\ (documentsAll s' = [] -> foldersCache s' = ∅).
Proof.
  cbn zeta. rewrite handleDocumentsOnDidClose_server.
  destruct (evictFolders_spec (server w)) as [[Hdocs _] Hk].
  set (s' := evictFolders (openFolders (server w)) (server w)) in *.
  assert (documentsAll s' = documentsAll (server w)) as Hall
    by (unfold documentsAll; by rewrite Hdocs).
  assert (forall k (cached : bool),
            (cached = true -> is_Some (foldersCache (server w) !! k)) ->
            bool_decide (is_Some (foldersCache (server w) !! k) /\ k ∉ openFolders (server w))
              = false ->
            (exists document, document ∈ documentsAll s' /\ k = dirname (uri document))
            \/ cached = false) as Hopen.
  { intros k cached Hcached Hgone. apply bool_decide_eq_false in Hgone.
    destruct cached; [left|by right]. rewrite Hall, <- elem_of_openFolders.
    destruct (decide (k ∈ openFolders (server w))); [done|].
    exfalso. apply Hgone. by split; [apply Hcached|]. }
  split; [|split; [|split; [|split]]].
  - intros k Hsome. destruct (Hk k) as (Hf & _ & _).
    destruct (bool_decide _) eqn:Hgone in Hf; [rewrite Hf in Hsome; by destruct Hsome|].
    rewrite Hf in Hsome.
    destruct (Hopen k true (fun _ => Hsome) Hgone) as [?|?]; done.
  - intros k Hsome. destruct (Hk k) as (_ & Hx & _).
    destruct (bool_decide _) eqn:Hgone in Hx; [rewrite Hx in Hsome; by destruct Hsome|].
    destruct (foldersCache (server w) !! k) eqn:Hcached; [|by right].
    destruct (Hopen k true) as [?|?]; try done; [by rewrite Hcached|by left].
  - intros k Hsome. destruct (Hk k) as (_ & _ & Hc).
    destruct (bool_decide _) eqn:Hgone in Hc; [rewrite Hc in Hsome; by destruct Hsome|].
    destruct (foldersCache (server w) !! k) eqn:Hcached; [|by right].
    destruct (Hopen k true) as [?|?]; try done; [by rewrite Hcached|by left].
  - intros k Hnone. destruct (Hk k) as (_ & -> & ->).
    rewrite bool_decide_eq_false_2; [done|]. rewrite Hnone. by intros [[? ?] _].
  - intros Hnone. apply map_eq. intros k. rewrite lookup_empty.
    destruct (Hk k) as (-> & _ & _). case_bool_decide as Hgone; [done|].
    destruct (foldersCache (server w) !! k) eqn:Hcached; [|done].
    exfalso. apply Hgone. split; [done|]. rewrite elem_of_openFolders.
    intros (document & Hin & _). rewrite <- Hall, Hnone in Hin. by apply elem_of_nil in Hin.
Qed.

(** *** The configuration-changed notification *)

Lemma getEntry_elem_of (uri : string) (entries : list (string * nat)) (o : nat) :
  getEntry uri entries = Some o -> (uri, o) ∈ entries.
Proof.
  induction entries as [|[key o'] entries IH]; cbn; [done|].
  case_decide as Hkey; [intros [= ->]; subst; left|intros Hrest; right; by apply IH].
Qed.

Lemma elem_of_allDocuments (m : TextDocuments) (d : TextDocument) :
  d ∈ allDocuments m <-> exists uri o, (uri, o) ∈ synced m /\ d = object m o.
Proof.
  unfold allDocuments. rewrite list_elem_of_fmap. split.
  - intros ([uri o] & -> & Hin). by exists uri, o.
  - intros (uri & o & Hin & ->). by exists (uri, o).
Qed.

Lemma lookup_allDocuments (m : TextDocuments) (uri : string) (d : TextDocument) :
  m !! uri = Some d -> d ∈ allDocuments m.
Proof.
  unfold lookup, TextDocuments_lookup, getObject.
  destruct (getEntry uri (synced m)) as [o|] eqn:Hentry; [|done].
  intros [= <-]. apply elem_of_allDocuments. exists uri, o.
  split; [by apply getEntry_elem_of|done].
Qed.

(** C4 (frame of the configuration change).  For every notification the
    handler reaches its call of [lintDocuments] in a state [s1] whose
    configuration cache is empty while [xoCache], [foldersCache],
    [documentFixes] (and the open documents) are those it started with;
    it then calls [lintDocuments] once, on [documents.all()], and ends as
    that call ends.  The list passed holds every open document (whatever
    [documents.get] returns for some URI is in it) and only objects the
    mirror tracks, in the mirror's order. *)
Theorem configuration_change_clears_configurationCache {R : Type}
    (params : ChangeConfigurationParams) (w : World R) :
  exists s1,
    configurationCache s1 = ∅
    /\ xoCache s1 = xoCache (server w)
    /\ foldersCache s1 = foldersCache (server w)
    /\ documentFixes s1 = documentFixes (server w)
    /\ documents s1 = documents (server w)
    /\ handleDidChangeConfiguration params w
       = (let (s2, c) := lintDocumentsImpl s1 (documentsAll (server w)) in
          ({| server := s2;
              trace := trace w ++ [CallLintDocuments (documentsAll (server w))];
              promise := promise w |}, c))
    /\ (forall uri openDocument,
          documents (server w) !! uri = Some openDocument ->
          openDocument ∈ documentsAll (server w))
    /\ (forall listed,
          listed ∈ documentsAll (server w) ->
          exists uri o,
            (uri, o) ∈ synced (documents (server w))
            /\ listed = object (documents (server w)) o)
    /\ documentsAll (server w)
       = (fun entry => object (documents (server w)) entry.2)
           <$> synced (documents (server w)).
Proof.
  exists (clearConfigurationCache (updateDebounce params (server w))).
  assert (forall s, xoCache (updateDebounce params s) = xoCache s
                    /\ foldersCache (updateDebounce params s) = foldersCache s
                    /\ documentFixes (updateDebounce params s) = documentFixes s
                    /\ documents (updateDebounce params s) = documents s) as Hframe.
  { intros s. unfold updateDebounce.
    destruct (Number _); [case_bool_decide|]; done. }
  destruct (Hframe (server w)) as (Hx & Hf & Hfix & Hdocs).
  do 5 (split; [done|]).
  split; [|split; [|split]].
  - unfold handleDidChangeConfiguration. run.
    unfold documentsAll at 1 2. cbn. rewrite Hdocs.
    by destruct lintDocumentsImpl.
  - intros uri openDocument. apply lookup_allDocuments.
  - intros listed. apply elem_of_allDocuments.
  - reflexivity.
Qed.

(** *** The document-changed notification *)

(** C5 (staleness guard).  When the version of the event's document is not
    the version tracked for its URI at the time the task runs (no tracked
    document counts as a different version), the task leaves the world as
    it found it and completes normally: no call is recorded, so no lint is
    invoked and no error is logged or thrown. *)
Theorem stale_change_is_skipped {R : Type} (event : TextDocumentChangeEvent)
    (w : World R) :
  Some (version (document event))
    ≠ (version <$> documents (server w) !! uri (document event)) ->
  handleDocumentsOnDidChangeContent event w = (w, Normal tt).
Proof.
  intros Hstale. unfold handleDocumentsOnDidChangeContent. run.
  by rewrite bool_decide_eq_true_2.
Qed.

(** *** The formatting request *)

Lemma isDocumentOpen_true (s : LintServer) (document : TextDocumentIdentifier) :
  isDocumentOpen s document = true ->
  exists cachedTextDocument,
    getObject (documents s) (identifier_uri document) = Some cachedTextDocument.
Proof.
  unfold isDocumentOpen. intros [_ Hopen]%andb_prop.
  apply bool_decide_eq_true in Hopen. destruct Hopen as [d Hd].
  unfold lookup, TextDocuments_lookup in Hd.
  destruct (getObject _ _) as [o|]; [by exists o|done].
Qed.

(** C3, where the code departs from it.  A formatting request for a
    document that is not open runs into the bare [return] of line 263: the
    task ends normally without having called [resolve] or [reject], no
    collaborator is called, and the promise of the request stays pending. *)
Theorem formatting_closed_document_stays_pending (s : LintServer)
    (params : DocumentFormattingParams) (token : CancellationToken) :
  isDocumentOpen s (textDocument params) = false ->
  handleDocumentFormattingRequest params token (request s)
    = ({| server := s; trace := []; promise := Pending |}, Normal tt).
Proof.
  intros Hclosed. unfold handleDocumentFormattingRequest. run.
  by rewrite Hclosed.
Qed.

(** The cancellation part of C3: for an open document, a token that is
    cancelled when the task starts makes the promise reject with the
    request-cancelled error, before any collaborator is called. *)
Lemma formatting_cancelled_rejects (s : LintServer)
    (params : DocumentFormattingParams) (token : CancellationToken) :
  isDocumentOpen s (textDocument params) = true ->
  isCancellationRequested token = true ->
  handleDocumentFormattingRequest params token (request s)
    = ({| server := s; trace := [];
          promise := Rejected (ResponseError RequestCancelled "Request was cancelled") |},
       Normal tt).
Proof.
  intros Hopen Hcancelled. unfold handleDocumentFormattingRequest. run.
  by rewrite Hopen, Hcancelled.
Qed.

(** C6, as the code has it.  For a formatting request against an open
    document whose configuration resolves to one with format-on-save
    disabled ([config] undefined or [config.format.enable] falsy), the fix
    pipeline is never invoked: neither [getDocumentFixes] nor
    [getLintResults] is called.  The promise resolves with the empty edit
    list when cancellation has not been requested at the start of the task
    (the only call made is then the one to [getDocumentConfig]); when it has,
    the promise is rejected with the request-cancelled error. *)
Theorem formatting_disabled_skips_fix_pipeline (s s' : LintServer)
    (params : DocumentFormattingParams) (token : CancellationToken)
    (config : option XoConfig) :
  isDocumentOpen s (textDocument params) = true ->
  getDocumentConfigImpl s (textDocument params) = (s', Normal config) ->
  formatEnabled config = false ->
  let w' := (handleDocumentFormattingRequest params token (request s)).1 in
  promise w'
    = (if isCancellationRequested token
       then Rejected (ResponseError RequestCancelled "Request was cancelled")
       else Resolved [])
  /\ trace w'
     = (if isCancellationRequested token then []
        else [CallGetDocumentConfig (textDocument params)])
  /\ filter (fun e => fixPipelineCall e = true) (trace w') = [].
Proof.
  intros Hopen Hconfig Hdisabled.
  destruct (isCancellationRequested token) eqn:Hcancelled.
  - by rewrite formatting_cancelled_rejects.
  - destruct (isDocumentOpen_true _ _ Hopen) as [cached Hcached].
    unfold handleDocumentFormattingRequest. run.
    rewrite Hopen, Hcancelled, Hcached. cbn.
    rewrite Hconfig. cbn. rewrite Hdisabled. cbn. done.
Qed.

(** *** The code-action request *)

(** C9, as the code has it.  For a code-action request whose context
    carries the diagnostics [diagnostic :: rest], the run is the run of the
    request that carries [diagnostic] alone, so the rest never influences
    the result.  At most one fix key is computed and looked up, the one of
    [diagnostic]: exactly one when the URI is non-empty, the request is not
    cancelled and the document has a fix map, none otherwise.  Actions the
    promise resolves with are empty or built from [diagnostic] and the fix
    cached under its key. *)
Theorem code_action_uses_first_diagnostic (s : LintServer) (td : TextDocumentIdentifier)
    (token : CancellationToken) (diagnostic : Diagnostic) (rest : list Diagnostic) :
  let run diagnostics :=
    handleCodeActionRequest
      {| codeAction_textDocument := td; context_diagnostics := diagnostics |}
      token (request s) in
  let uri := identifier_uri td in
  run (diagnostic :: rest) = run [diagnostic]
  /\ keyLookups (trace (run (diagnostic :: rest)).1)
     = (if truthy uri && negb (isCancellationRequested token)
           && bool_decide (is_Some (documentFixes s !! uri))
        then [diagnostic] else [])
  /\ forall actions,
       promise (run (diagnostic :: rest)).1 = Resolved actions ->
       actions = []
       \/ exists fixes edit textDocument,
            documentFixes s !! uri = Some fixes
            /\ fixes !! computeKeyImpl diagnostic = Some edit
            /\ documents s !! uri = Some textDocument
            /\ codeActionsBuildImpl diagnostic edit textDocument = Normal actions.
Proof.
  cbn zeta. split; [reflexivity|].
  unfold handleCodeActionRequest, keyLookups. run.
  destruct (truthy (identifier_uri td)); cbn;
    [|split; [done|]; intros ? [= <-]; by left].
  destruct (isCancellationRequested token); cbn; [split; [done|]; by intros ? [=]|].
  destruct (documentFixes s !! identifier_uri td) as [fixes|] eqn:Hfixes; cbn;
    [|split; [done|]; destruct (documents s !! _); intros ? [= <-]; by left].
  destruct (fixes !! computeKeyImpl diagnostic) as [edit|] eqn:Hedit; cbn;
    [|split; [done|]; intros ? [= <-]; by left].
  destruct (documents s !! identifier_uri td) as [textDocument|] eqn:Hdoc; cbn;
    [|split; [done|]; intros ? [= <-]; by left].
  destruct (codeActionsBuildImpl diagnostic edit textDocument) as [built|error] eqn:Hbuild; cbn.
  - split; [done|]. intros ? [= <-]. right. by exists fixes, edit, textDocument.
  - destruct (instanceofError error); cbn; (split; [done|]); by intros ? [=].
Qed.

End Properties.

#[local] Existing Instance sampleCarriers.
#[local] Existing Instance sampleCollaborators.

Example posixDirname_index : posixDirname indexUri = appFolder.
Proof. vm_compute. reflexivity. Qed.

(** *** The formatting handler on a document with CR LF line breaks *)

(** C1, where the code departs from it.  The original is ["a\r\nb\r\n"]
    and the linter's output ["a\nb\n"].  The two loops give [i = 1] and
    [j = 1], so the span [[1, 5)] is to be replaced by ["\nb"].  Offset 5
    lies between a CR and its LF, and [positionAt] answers with the
    position of offset 4: the edit the handler resolves with has the range
    (0,1)-(1,1), and applied to the original it gives ["a\nb\r\n"], which
    is not the linter's output. *)
Theorem experimental_replace_misses_crlf :
  let w' := (@handleDocumentFormattingRequest _ unixLinebreaks formatIndex notCancelled
               (request crlfServer)).1 in
  let edit := {| range := {| range_start := {| line := 0; character := 1 |};
                             range_end := {| line := 1; character := 1 |} |};
                 newText := ["010"; "b"]%char |} in
  Diff.diff crlfText lfText
    = Some {| Diff.startOffset := 1; Diff.endOffset := 5;
              Diff.newText := ["010"; "b"]%char |}
  /\ libPositionAt crlfDocument 1 = {| line := 0; character := 1 |}
  /\ libPositionAt crlfDocument 5 = {| line := 1; character := 1 |}
  /\ promise w' = Resolved [edit]
  /\ applyTextEdit (libOffsetAt crlfDocument) crlfText edit
     = ["a"; "010"; "b"; "013"; "010"]%char
  /\ applyTextEdit (libOffsetAt crlfDocument) crlfText edit ≠ lfText.
Proof. vm_compute. repeat split; discriminate. Qed.

(** *** The close handler on the concrete server *)

(** Against C2 as stated: index.js is closed, its folder has no open
    document left and loses its three cache entries, yet the fix map still
    holds the entry of index.js after the handler. *)
Lemma close_leaves_fix_entry :
  let s' := server (handleDocumentsOnDidClose closeIndex (@request _ unit closingServer)).1 in
  documentsAll closingServer = []
  /\ foldersCache s' !! appFolder = None
  /\ xoCache s' !! appFolder = None
  /\ configurationCache s' !! appFolder = None
  /\ documentFixes s' !! indexUri = Some indexFixes
  /\ documentFixes s' !! uri (document closeIndex) ≠ None.
Proof. vm_compute. repeat split; discriminate. Qed.

Lemma close_keeps_documentFixes_witness :
  let s' := server (handleDocumentsOnDidClose closeIndex (@request _ unit closingServer)).1 in
  is_Some (foldersCache closingServer !! appFolder)
  /\ (forall document,
        document ∈ documentsAll closingServer -> dirname (uri document) ≠ appFolder)
  /\ documentFixes s' = documentFixes closingServer
  /\ foldersCache s' !! appFolder = None
  /\ xoCache s' !! appFolder = None
  /\ configurationCache s' !! appFolder = None.
Proof.
  assert (is_Some (foldersCache closingServer !! appFolder)) as Hcached
    by (vm_compute; eexists; reflexivity).
  assert (forall document,
            document ∈ documentsAll closingServer -> dirname (uri document) ≠ appFolder)
    as Hclosed by (intros document Hin; vm_compute in Hin; by apply elem_of_nil in Hin).
  destruct (close_keeps_documentFixes closeIndex (@request _ unit closingServer))
    as [Hfix Hevict].
  split; [exact Hcached|]. split; [exact Hclosed|]. split; [exact Hfix|].
  exact (Hevict appFolder Hcached Hclosed).
Defined.

(** Against C10 as stated: no document is open and [foldersCache] is
    empty, so the loop has nothing to visit; the configuration cached for
    file:///work/app and the module cached for file:///work are still there
    after the handler. *)
Lemma close_leaves_unindexed_entries :
  let s' := server (handleDocumentsOnDidClose closeIndex (@request _ unit unindexedServer)).1 in
  documentsAll s' = []
  /\ configurationCache s' !! appFolder = Some formatOff
  /\ xoCache s' !! "file:///work" = Some "xo"
  /\ ~ (forall k, is_Some (configurationCache s' !! k) ->
          exists document, document ∈ documentsAll s' /\ k = dirname (uri document))
  /\ configurationCache s' ≠ ∅.
Proof.
  cbn zeta. split; [by vm_compute|]. split; [by vm_compute|]. split; [by vm_compute|].
  split.
  - intros Hall. destruct (Hall appFolder) as (document & Hin & _).
    + vm_compute. eexists; reflexivity.
    + vm_compute in Hin. by apply elem_of_nil in Hin.
  - intros Hempty.
    assert (configurationCache
              (server (handleDocumentsOnDidClose closeIndex
                         (@request _ unit unindexedServer)).1) !! appFolder
            = Some formatOff) as Hentry by (by vm_compute).
    rewrite Hempty in Hentry. by rewrite lookup_empty in Hentry.
Qed.

Lemma close_remaining_keys_witness :
  let s' := server (handleDocumentsOnDidClose closeIndex (@request _ unit closingServer)).1 in
  documentsAll s' = [] /\ foldersCache s' = ∅.
Proof.
  cbn zeta.
  assert (documentsAll
            (server (handleDocumentsOnDidClose closeIndex
                       (@request _ unit closingServer)).1) = [])
    as Hnone by (by vm_compute).
  split; [exact Hnone|].
  exact (proj2 (proj2 (proj2 (proj2
           (close_remaining_keys closeIndex (@request _ unit closingServer))))) Hnone).
Defined.

(** *** The change handler on the concrete server *)

(** Version 2 of index.js arrives when version 3 is already tracked. *)
Lemma stale_change_is_skipped_witness :
  let event := {| document := {| uri := indexUri; languageId := "javascript";
                                 version := 2;
                                 getText := String.list_ascii_of_string "let" |} |} in
  Some (version (document event))
    ≠ (version <$> documents openServer !! uri (document event))
  /\ handleDocumentsOnDidChangeContent event (@request _ unit openServer)
     = (request openServer, Normal tt).
Proof.
  cbn zeta.
  assert (Some 2 ≠ (version <$> documents openServer !! indexUri)) as Hstale
    by (vm_compute; discriminate).
  split; [exact Hstale|].
  apply (stale_change_is_skipped (R := unit)). exact Hstale.
Defined.

(** *** The configuration handler on the concrete server *)

(** index.js is open: it is in the list handed to [lintDocuments]. *)
Lemma configuration_change_clears_configurationCache_witness :
  documents openServer !! indexUri = Some indexDocument
  /\ indexDocument ∈ documentsAll openServer
  /\ trace (handleDidChangeConfiguration {| settings_xo := formatOff |}
              (@request _ unit openServer)).1
     = [CallLintDocuments [indexDocument]].
Proof.
  assert (documents openServer !! indexUri = Some indexDocument) as Hopen
    by (vm_compute; reflexivity).
  destruct (configuration_change_clears_configurationCache
              {| settings_xo := formatOff |} (@request _ unit openServer))
    as (s1 & _ & _ & _ & _ & _ & Hrun & Hall & _).
  split; [exact Hopen|]. split; [exact (Hall indexUri indexDocument Hopen)|].
  rewrite Hrun. by destruct lintDocumentsImpl.
Defined.

(** *** The formatting handler on the concrete server *)

(** The failing input of C3: index.js is formatted after it was closed. *)
Lemma formatting_closed_document_stays_pending_witness :
  isDocumentOpen closingServer (textDocument formatIndex) = false
  /\ promise (handleDocumentFormattingRequest formatIndex notCancelled
                (request closingServer)).1 = Pending.
Proof.
  assert (isDocumentOpen closingServer (textDocument formatIndex) = false) as Hclosed
    by (vm_compute; reflexivity).
  split; [exact Hclosed|].
  by rewrite (formatting_closed_document_stays_pending closingServer formatIndex
                notCancelled Hclosed).
Defined.

(** Against C6 as stated: index.js is open and its configuration has
    format-on-save off, but the request is cancelled when its task starts;
    the promise is rejected, not resolved with the empty list. *)
Lemma formatting_disabled_but_cancelled :
  let w' := (handleDocumentFormattingRequest formatIndex cancelled (request openServer)).1 in
  isDocumentOpen openServer (textDocument formatIndex) = true
  /\ getDocumentConfigImpl openServer (textDocument formatIndex)
     = (openServer, Normal (Some formatOff))
  /\ formatEnabled (Some formatOff) = false
  /\ promise w' = Rejected (ResponseError RequestCancelled "Request was cancelled")
  /\ promise w' ≠ Resolved [].
Proof. vm_compute. repeat split; discriminate. Qed.

Lemma formatting_disabled_skips_fix_pipeline_witness :
  let w' := (handleDocumentFormattingRequest formatIndex notCancelled
               (request openServer)).1 in
  (isDocumentOpen openServer (textDocument formatIndex) = true
   /\ getDocumentConfigImpl openServer (textDocument formatIndex)
      = (openServer, Normal (Some formatOff))
   /\ formatEnabled (Some formatOff) = false)
  /\ promise w' = Resolved []
  /\ trace w' = [CallGetDocumentConfig (textDocument formatIndex)]
  /\ filter (fun e => fixPipelineCall e = true) (trace w') = [].
Proof.
  assert (isDocumentOpen openServer (textDocument formatIndex) = true) as Hopen
    by (vm_compute; reflexivity).
  assert (getDocumentConfigImpl openServer (textDocument formatIndex)
          = (openServer, Normal (Some formatOff))) as Hconfig
    by (vm_compute; reflexivity).
  split; [repeat split; (exact Hopen || exact Hconfig || reflexivity)|].
  exact (formatting_disabled_skips_fix_pipeline openServer openServer formatIndex
           notCancelled (Some formatOff) Hopen Hconfig eq_refl).
Defined.

(** *** The code-action handler on the concrete server *)

Definition codeActionIndex (diagnostics : list string) : CodeActionParams :=
  {| codeAction_textDocument := {| identifier_uri := indexUri |};
     context_diagnostics := diagnostics |}.

(** Against C9 as stated: the request carries two diagnostics and is
    cancelled when its task starts; it is rejected and no fix key is looked
    up, where the claim has exactly one lookup. *)
Lemma code_action_cancelled_no_lookup :
  let w' := (handleCodeActionRequest (codeActionIndex ["semi@0:5"; "quotes@2:1"])
               cancelled (request openServer)).1 in
  keyLookups (trace w') = []
  /\ length (keyLookups (trace w')) ≠ 1%nat
  /\ promise w' = Rejected (ResponseError RequestCancelled "Request got cancelled").
Proof. vm_compute. repeat split; discriminate. Qed.

Lemma code_action_uses_first_diagnostic_witness :
  let w' := (handleCodeActionRequest (codeActionIndex ["semi@0:5"; "quotes@2:1"])
               notCancelled (request openServer)).1 in
  promise w' = Resolved [("semi@0:5", "insert ;")]
  /\ keyLookups (trace w') = ["semi@0:5"]
  /\ ([("semi@0:5", "insert ;")] = []
      \/ exists fixes edit textDocument,
           documentFixes openServer !! indexUri = Some fixes
           /\ fixes !! computeKeyImpl "semi@0:5" = Some edit
           /\ documents openServer !! indexUri = Some textDocument
           /\ codeActionsBuildImpl "semi@0:5" edit textDocument
              = Normal [("semi@0:5", "insert ;")]).
Proof.
  cbn zeta.
  assert (promise (handleCodeActionRequest (codeActionIndex ["semi@0:5"; "quotes@2:1"])
                     notCancelled (request openServer)).1
          = Resolved [("semi@0:5", "insert ;")]) as Hresolved by (vm_compute; reflexivity).
  destruct (code_action_uses_first_diagnostic openServer {| identifier_uri := indexUri |}
              notCancelled "semi@0:5" ["quotes@2:1"]) as (_ & Hlookups & Hactions).
  split; [exact Hresolved|]. split; [exact Hlookups|].
  exact (Hactions _ Hresolved).
Defined.

End ServerSpec.

(** * Further properties of the diff *)

Module DiffMore.
Import Diff.

Section DiffEngine.
Context {U : Type} `{EqDecision U}.

Abbreviation text := (list U) (only parsing).

Lemma len_app (s t : text) : len (s ++ t) = len s + len t.
Proof. unfold len. rewrite length_app. lia. Qed.

(** Two lengths that both end a common prefix at a difference (or at the
    end of a string) are equal. *)
Lemma prefix_length_unique (string0 string1 : text) (i1 i2 : Z) :
  0 <= i1 -> i2 <= len string0 -> i2 <= len string1 ->
  take (Z.to_nat i2) string0 = take (Z.to_nat i2) string1 ->
  (i1 = len string0 \/ i1 = len string1 \/ charAt string0 i1 <> charAt string1 i1) ->
  i2 <= i1.
Proof.
  intros Hi1 H0 H1 Hpre Hstop.
  destruct (Z.le_gt_cases i2 i1) as [?|Hlt]; [done|].
  destruct Hstop as [?|[?|Hdiff]]; [lia..|].
  exfalso. apply Hdiff. unfold charAt.
  destruct (Z.ltb_spec i1 0); [lia|].
  rewrite <- (lookup_take_lt string0 (Z.to_nat i2)) by lia.
  rewrite <- (lookup_take_lt string1 (Z.to_nat i2)) by lia.
  by rewrite Hpre.
Qed.

Lemma suffix_length_unique (string0 string1 : text) (i j1 j2 : Z) :
  0 <= i -> 0 <= j1 -> i + j2 <= len string0 -> i + j2 <= len string1 ->
  drop (Z.to_nat (len string0 - j2)) string0
    = drop (Z.to_nat (len string1 - j2)) string1 ->
  (i + j1 = len string0 \/ i + j1 = len string1
   \/ charAt string0 (len string0 - j1 - 1) <> charAt string1 (len string1 - j1 - 1)) ->
  j2 <= j1.
Proof.
  intros Hi Hj1 H0 H1 Hsuf Hstop.
  destruct (Z.le_gt_cases j2 j1) as [?|Hlt]; [done|].
  destruct Hstop as [?|[?|Hdiff]]; [lia..|].
  exfalso. apply Hdiff. unfold charAt.
  destruct (Z.ltb_spec (len string0 - j1 - 1) 0); [lia|].
  destruct (Z.ltb_spec (len string1 - j1 - 1) 0); [lia|].
  replace (Z.to_nat (len string0 - j1 - 1))
    with (Z.to_nat (len string0 - j2) + Z.to_nat (j2 - j1 - 1))%nat by lia.
  replace (Z.to_nat (len string1 - j1 - 1))
    with (Z.to_nat (len string1 - j2) + Z.to_nat (j2 - j1 - 1))%nat by lia.
  rewrite <- !lookup_drop. by rewrite Hsuf.
Qed.

(** The result of [diff] is the one pair of lengths with the properties of
    [DiffSpec.diff_runs]. *)
Lemma diff_characterised (string0 string1 : text) (i j : Z) :
  0 <= i -> 0 <= j -> i + j <= len string0 -> i + j <= len string1 ->
  take (Z.to_nat i) string0 = take (Z.to_nat i) string1 ->
  (i = len string0 \/ i = len string1 \/ charAt string0 i <> charAt string1 i) ->
  drop (Z.to_nat (len string0 - j)) string0
    = drop (Z.to_nat (len string1 - j)) string1 ->
  (i + j = len string0 \/ i + j = len string1
   \/ charAt string0 (len string0 - j - 1) <> charAt string1 (len string1 - j - 1)) ->
  diff string0 string1
    = Some {| startOffset := i;
              endOffset := len string0 - j;
              newText := substring string1 i (len string1 - j) |}.
Proof.
  intros Hi Hj H0 H1 Hpre Hlongest Hsuf Hstop.
  destruct (DiffSpec.diff_runs string0 string1)
    as (i' & j' & -> & (Hi' & Hj' & H0' & H1') & (Hpre' & Hlongest') & (Hsuf' & Hstop')).
  assert (i' = i) as ->.
  { apply Z.le_antisymm.
    - apply (prefix_length_unique string0 string1); (lia || done).
    - apply (prefix_length_unique string0 string1); (lia || done). }
  assert (j' = j) as ->.
  { apply Z.le_antisymm.
    - apply (suffix_length_unique string0 string1 i); (lia || done).
    - apply (suffix_length_unique string0 string1 i); (lia || done). }
  done.
Qed.

Lemma charAt_nat (s : text) (n : nat) : charAt s (Z.of_nat n) = s !! n.
Proof.
  unfold charAt. destruct (Z.ltb_spec (Z.of_nat n) 0); [lia|]. by rewrite Nat2Z.id.
Qed.

Lemma charAt_outside (s : text) (k : Z) : k < 0 \/ len s <= k -> charAt s k = None.
Proof.
  unfold charAt, len. intros Hk. destruct (Z.ltb_spec k 0); [done|].
  apply lookup_ge_None. lia.
Qed.

Lemma lookup_middle (P X S : text) (n : nat) :
  (n < length X)%nat -> (P ++ X ++ S) !! (length P + n)%nat = X !! n.
Proof.
  intros Hn. rewrite lookup_app_r by lia.
  replace (length P + n - length P)%nat with n by lia.
  by rewrite lookup_app_l.
Qed.

(** Whatever [diff] returns: the original's text before the start
    offset, the new text and the original's text from the end offset on
    make up the output. *)
Lemma splice_of_diff (string0 string1 : text) (e : Replacement) :
  diff string0 string1 = Some e ->
  substring string0 0 (startOffset e) ++ newText e
    ++ substring string0 (endOffset e) (len string0) = string1.
Proof.
  destruct (DiffSpec.diff_runs string0 string1)
    as (i & j & -> & (Hi & Hj & H0 & H1) & (Hpre & _) & (Hsuf & _)).
  intros [= <-]. cbn [startOffset endOffset newText].
  rewrite !DiffSpec.substring_in_range by lia.
  rewrite Z.sub_0_r. change (Z.to_nat 0) with 0%nat. rewrite drop_0, Hpre.
  rewrite (take_ge (drop _ string0)) by (rewrite length_drop; unfold len; lia).
  rewrite Hsuf.
  replace (Z.to_nat (len string1 - j))
    with (Z.to_nat i + Z.to_nat (len string1 - j - i))%nat by lia.
  rewrite <- drop_drop, (take_drop _ (drop _ string1)).
  apply take_drop.
Qed.

(** X1 (append).  When the linter's output is the original text followed
    by [X], the diff is the insertion of [X] at the end of the document:
    an empty span at offset [|A|].  With [X] empty this is the case of
    identical strings. *)
Theorem diff_append (A X : text) :
  diff A (A ++ X)
    = Some {| startOffset := len A; endOffset := len A; newText := X |}.
Proof.
  assert (len A + 0 <= len (A ++ X)) as H1 by (rewrite len_app; unfold len; lia).
  assert (take (Z.to_nat (len A)) A = take (Z.to_nat (len A)) (A ++ X)) as Hpre.
  { unfold len. by rewrite Nat2Z.id, take_app_length, firstn_all. }
  assert (drop (Z.to_nat (len A - 0)) A = drop (Z.to_nat (len (A ++ X) - 0)) (A ++ X))
    as Hsuf.
  { rewrite !Z.sub_0_r. unfold len. by rewrite !Nat2Z.id, !drop_all. }
  rewrite (diff_characterised A (A ++ X) (len A) 0
             ltac:(unfold len; lia) ltac:(lia) ltac:(lia) H1 Hpre
             ltac:(by left) Hsuf ltac:(left; lia)).
  f_equal. f_equal; [lia|].
  rewrite DiffSpec.substring_in_range by (rewrite ?len_app; unfold len; lia).
  unfold len. rewrite Nat2Z.id, drop_app_length. apply take_ge.
  rewrite length_app. lia.
Qed.

(** X2 (truncation).  When the linter's output is the original text
    without its tail [X], the diff deletes exactly that tail: the span from
    [|B|] to the end of the document is replaced by the empty string. *)
Theorem diff_truncate (B X : text) :
  diff (B ++ X) B
    = Some {| startOffset := len B; endOffset := len B + len X; newText := [] |}.
Proof.
  assert (len B + 0 <= len (B ++ X)) as H0 by (rewrite len_app; unfold len; lia).
  assert (take (Z.to_nat (len B)) (B ++ X) = take (Z.to_nat (len B)) B) as Hpre.
  { unfold len. by rewrite Nat2Z.id, take_app_length, firstn_all. }
  assert (drop (Z.to_nat (len (B ++ X) - 0)) (B ++ X) = drop (Z.to_nat (len B - 0)) B)
    as Hsuf.
  { rewrite !Z.sub_0_r. unfold len. by rewrite !Nat2Z.id, !drop_all. }
  rewrite (diff_characterised (B ++ X) B (len B) 0
             ltac:(unfold len; lia) ltac:(lia) H0 ltac:(lia) Hpre
             ltac:(by right; left) Hsuf ltac:(right; left; lia)).
  f_equal. rewrite len_app. f_equal; [lia|].
  rewrite DiffSpec.substring_in_range by (unfold len; lia).
  by rewrite Z.sub_0_r, Z.sub_diag.
Qed.

(** X3 (disjoint strings).  When the two strings differ in their first
    code unit and in their last one (an empty string differs from a
    non-empty one in both), nothing is trimmed: the whole document is
    replaced by the whole output. *)
Theorem diff_disjoint (A B : text) :
  charAt A 0 <> charAt B 0 ->
  charAt A (len A - 1) <> charAt B (len B - 1) ->
  diff A B = Some {| startOffset := 0; endOffset := len A; newText := B |}.
Proof.
  intros Hfirst Hlast.
  assert (drop (Z.to_nat (len A - 0)) A = drop (Z.to_nat (len B - 0)) B) as Hsuf.
  { rewrite !Z.sub_0_r. unfold len. by rewrite !Nat2Z.id, !drop_all. }
  rewrite (diff_characterised A B 0 0
             ltac:(lia) ltac:(lia) ltac:(unfold len; lia) ltac:(unfold len; lia)
             eq_refl ltac:(by right; right) Hsuf
             ltac:(right; right; by rewrite !Z.sub_0_r)).
  f_equal. f_equal; [lia|].
  rewrite DiffSpec.substring_in_range by (unfold len; lia).
  rewrite !Z.sub_0_r. unfold len. rewrite Nat2Z.id. apply firstn_all.
Qed.

(** X4 (a change between a common prefix and a common suffix).  When the
    original is [P ++ X ++ S] and the output [P ++ Y ++ S], with [X] and [Y]
    non-empty and different in their first and in their last code unit,
    the edit replaces exactly the span of [X] by [Y]: [P] and [S] are left
    out of the edit. *)
Theorem diff_localised (P X Y S : text) :
  X <> [] -> Y <> [] -> head X <> head Y -> last X <> last Y ->
  diff (P ++ X ++ S) (P ++ Y ++ S)
    = Some {| startOffset := len P; endOffset := len P + len X; newText := Y |}.
Proof.
  intros HX HY Hhead Hlast.
  assert (0 < length X)%nat as HlX by (destruct X; [done|cbn; lia]).
  assert (0 < length Y)%nat as HlY by (destruct Y; [done|cbn; lia]).
  set (A := P ++ X ++ S). set (B := P ++ Y ++ S).
  assert (len A = len P + len X + len S) as HA
    by (subst A; rewrite !len_app; lia).
  assert (len B = len P + len Y + len S) as HB
    by (subst B; rewrite !len_app; lia).
  assert (take (Z.to_nat (len P)) A = take (Z.to_nat (len P)) B) as Hpre.
  { subst A B. unfold len. by rewrite Nat2Z.id, !take_app_length. }
  assert (charAt A (len P) <> charAt B (len P)) as Hlongest.
  { subst A B. unfold len. rewrite !charAt_nat.
    rewrite <- (Nat.add_0_r (length P)).
    rewrite !lookup_middle by lia. by rewrite <- !head_lookup. }
  assert (drop (Z.to_nat (len A - len S)) A = drop (Z.to_nat (len B - len S)) B) as Hsuf.
  { rewrite HA, HB.
    replace (Z.to_nat (len P + len X + len S - len S)) with (length (P ++ X))
      by (rewrite length_app; unfold len; lia).
    replace (Z.to_nat (len P + len Y + len S - len S)) with (length (P ++ Y))
      by (rewrite length_app; unfold len; lia).
    subst A B. rewrite !(assoc_L (++) P). by rewrite !drop_app_length. }
  assert (charAt A (len A - len S - 1) <> charAt B (len B - len S - 1)) as Hstop.
  { rewrite HA, HB.
    replace (len P + len X + len S - len S - 1)
      with (Z.of_nat (length P + pred (length X))) by (unfold len; lia).
    replace (len P + len Y + len S - len S - 1)
      with (Z.of_nat (length P + pred (length Y))) by (unfold len; lia).
    subst A B. rewrite !charAt_nat.
    rewrite !lookup_middle by lia. by rewrite <- !last_lookup. }
  rewrite (diff_characterised A B (len P) (len S)
             ltac:(unfold len; lia) ltac:(unfold len; lia)
             ltac:(unfold len in *; lia) ltac:(unfold len in *; lia)
             Hpre ltac:(by right; right) Hsuf ltac:(by right; right)).
  f_equal. f_equal; [lia|].
  rewrite DiffSpec.substring_in_range by (unfold len in *; lia).
  rewrite HB. subst B. unfold len. rewrite Nat2Z.id, drop_app_length.
  replace (Z.to_nat _) with (length Y) by lia. by rewrite take_app_length.
Qed.

(** X5 (the reverse diff).  The diff of [B] against [A] trims the same
    prefix and the same suffix as the diff of [A] against [B]: it replaces
    the span of [B] that the forward edit wrote by the span of [A] that the
    forward edit removed. *)
Theorem diff_reverse (A B : text) :
  exists i j,
    diff A B = Some {| startOffset := i;
                       endOffset := len A - j;
                       newText := substring B i (len B - j) |}
    /\ diff B A = Some {| startOffset := i;
                          endOffset := len B - j;
                          newText := substring A i (len A - j) |}.
Proof.
  destruct (DiffSpec.diff_runs A B)
    as (i & j & Hrun & (Hi & Hj & HA & HB) & (Hpre & Hlongest) & (Hsuf & Hstop)).
  exists i, j. split; [done|].
  apply diff_characterised; try (lia || done).
  - destruct Hlongest as [?|[?|?]]; [by right; left|by left|by right; right].
  - destruct Hstop as [?|[?|?]]; [by right; left|by left|by right; right].
Qed.

(** X6 (the offsets of the edit).  The offsets the handler passes to
    [positionAt] are ordered and lie inside the original text, and the
    output is as long as the original with the span's length replaced by
    the new text's. *)
Theorem diff_offsets_in_range (A B : text) :
  exists e,
    diff A B = Some e
    /\ 0 <= startOffset e <= endOffset e
    /\ endOffset e <= len A
    /\ len B = len A - (endOffset e - startOffset e) + len (newText e).
Proof.
  destruct (DiffSpec.diff_runs A B)
    as (i & j & Hrun & (Hi & Hj & HA & HB) & _).
  eexists. split; [exact Hrun|]. cbn [startOffset endOffset newText].
  rewrite DiffSpec.substring_in_range by lia.
  unfold len in *. rewrite length_take, length_drop. lia.
Qed.

End DiffEngine.

Lemma diff_disjoint_witness :
  let A := String.list_ascii_of_string "var a" in
  let B := String.list_ascii_of_string "let b;" in
  (charAt A 0 <> charAt B 0 /\ charAt A (len A - 1) <> charAt B (len B - 1))
  /\ diff A B = Some {| startOffset := 0; endOffset := 5; newText := B |}.
Proof.
  cbn zeta.
  assert (charAt (String.list_ascii_of_string "var a") 0
          <> charAt (String.list_ascii_of_string "let b;") 0) as Hfirst
    by (vm_compute; discriminate).
  assert (charAt (String.list_ascii_of_string "var a")
                 (len (String.list_ascii_of_string "var a") - 1)
          <> charAt (String.list_ascii_of_string "let b;")
                    (len (String.list_ascii_of_string "let b;") - 1)) as Hlast
    by (vm_compute; discriminate).
  split; [by split|]. exact (diff_disjoint _ _ Hfirst Hlast).
Defined.

Lemma diff_localised_witness :
  let s := String.list_ascii_of_string in
  (s "=1" <> [] /\ s " = 1;" <> [] /\ head (s "=1") <> head (s " = 1;")
   /\ last (s "=1") <> last (s " = 1;"))
  /\ diff (s "const x" ++ s "=1" ++ s "") (s "const x" ++ s " = 1;" ++ s "")
     = Some {| startOffset := 7; endOffset := 9; newText := s " = 1;" |}.
Proof.
  cbn zeta.
  assert (String.list_ascii_of_string "=1" <> []) as HX by (vm_compute; discriminate).
  assert (String.list_ascii_of_string " = 1;" <> []) as HY by (vm_compute; discriminate).
  assert (head (String.list_ascii_of_string "=1")
          <> head (String.list_ascii_of_string " = 1;")) as Hhead
    by (vm_compute; discriminate).
  assert (last (String.list_ascii_of_string "=1")
          <> last (String.list_ascii_of_string " = 1;")) as Hlast
    by (vm_compute; discriminate).
  split; [done|].
  exact (diff_localised (String.list_ascii_of_string "const x") _ _
           (String.list_ascii_of_string "") HX HY Hhead Hlast).
Defined.

End DiffMore.

(** * Scripted collaborators, for the examples of the further properties *)

Module ServerScripts.
Import Server.

#[local] Existing Instance sampleCarriers.

(** Format-on-save switched on, with a debounce of 200 ms. *)
Definition formatOn : XoConfig :=
  {| format := Some {| enable := Some true |}; debounce := Some (JsInteger 200) |}.

(** [openServer] with formatting enabled for the folder of index.js. *)
Definition formattingServer : LintServer :=
  {| documents := documents openServer;
     foldersCache := foldersCache openServer;
     configurationCache := {[ appFolder := formatOn ]};
     xoCache := xoCache openServer;
     documentFixes := documentFixes openServer;
     hasShownResolutionError := false;
     currentDebounce := 0;
     lintDocumentDebounced := {| wait := 0; maxWait := 350 |} |}.

(** The fix of index.js: a semicolon inserted at the end of its line. *)
Definition semicolonFix : DocumentFixes :=
  {| edits := [ {| range := {| range_start := {| line := 0; character := 5 |};
                               range_end := {| line := 0; character := 5 |} |};
                   newText := String.list_ascii_of_string ";" |} ] |}.

(** Collaborators that leave the server alone and answer as scripted: the
    configuration comes from the cache of the document's folder, the other
    answers are the arguments. *)
Definition scripted (fixes : option DocumentFixes) (edited : Completion (list ascii))
    (report : Completion Report) (built : Completion (list (string * string)))
    (linted : Completion unit) : Collaborators :=
  {| dirname := posixDirname;
     getDocumentConfigImpl s textDocument :=
       (s, Normal (configurationCache s !! posixDirname (identifier_uri textDocument)));
     getDocumentFixesImpl s uri := (s, Normal fixes);
     getLintResultsImpl s textDocument contents forceFix := (s, report);
     lintDocumentsImpl s documents := (s, Normal tt);
     lintDocumentDebouncedImpl debounced s textDocument := (s, linted);
     sendDiagnosticsImpl uri diagnostics := Normal tt;
     computeKeyImpl diagnostic := diagnostic;
     codeActionsBuildImpl diagnostic edit textDocument := built;
     applyEditsImpl textDocument edits := edited;
     positionAt textDocument offset := {| line := 0; character := offset |} |}.

Definition reportOf (text : string) : Report :=
  {| results := [ {| output := Some (String.list_ascii_of_string text) |} ] |}.

(** The linter agrees with the edited content. *)
Definition agreeing : Collaborators :=
  scripted (Some semicolonFix) (Normal (String.list_ascii_of_string "let a;"))
           (Normal (reportOf "let a;")) (Normal []) (Normal tt).

(** The linter's own output renames the variable as well. *)
Definition diverging : Collaborators :=
  scripted (Some semicolonFix) (Normal (String.list_ascii_of_string "let a;"))
           (Normal (reportOf "let b;")) (Normal []) (Normal tt).

(** The linter, the action builder and the debounced lint fail. *)
Definition failing : Collaborators :=
  scripted (Some semicolonFix) (Normal (String.list_ascii_of_string "let a;"))
           (Throw (OtherError "lint failed")) (Throw (OtherError "build failed"))
           (Throw (OtherError "lint failed")).

(** Version 4 of index.js, typed while a formatting request is under way. *)
Definition indexDocumentTyped : TextDocument :=
  {| uri := indexUri;
     languageId := "javascript";
     version := 4;
     getText := String.list_ascii_of_string "let ab" |}.

(** The server once the mirror has updated the object of index.js in place. *)
Definition typedInto (s : LintServer) : LintServer :=
  {| documents := {| synced := synced (documents s);
                     object := fun _ => indexDocumentTyped |};
     foldersCache := foldersCache s;
     configurationCache := configurationCache s;
     xoCache := xoCache s;
     documentFixes := documentFixes s;
     hasShownResolutionError := hasShownResolutionError s;
     currentDebounce := currentDebounce s;
     lintDocumentDebounced := lintDocumentDebounced s |}.

(** Collaborators during whose [getDocumentFixes] the user types: when the
    call returns, the document object holds version 4.  The fix then gives
    ["let ab;"], and the linter's own output is ["let abc;"]. *)
Definition typing : Collaborators :=
  {| dirname := posixDirname;
     getDocumentConfigImpl s textDocument :=
       (s, Normal (configurationCache s !! posixDirname (identifier_uri textDocument)));
     getDocumentFixesImpl s uri := (typedInto s, Normal (Some semicolonFix));
     getLintResultsImpl s textDocument contents forceFix :=
       (s, Normal (reportOf "let abc;"));
     lintDocumentsImpl s documents := (s, Normal tt);
     lintDocumentDebouncedImpl debounced s textDocument := (s, Normal tt);
     sendDiagnosticsImpl uri diagnostics := Normal tt;
     computeKeyImpl diagnostic := diagnostic;
     codeActionsBuildImpl diagnostic edit textDocument := Normal [];
     applyEditsImpl textDocument edits := Normal (getText textDocument ++ [";"%char]);
     positionAt textDocument offset := {| line := 0; character := offset |} |}.

(** The concrete case of the specification: ["const x=1"], for which the
    linter's output is ["const x = 1;"]. *)
Definition constDocument : TextDocument :=
  {| uri := indexUri; languageId := "javascript"; version := 1;
     getText := String.list_ascii_of_string "const x=1" |}.

Definition constOutput : list ascii := String.list_ascii_of_string "const x = 1;".

(** A second document of the folder of index.js, and the server with only
    that one still open. *)
Definition utilDocument : TextDocument :=
  {| uri := "file:///work/app/util.js";
     languageId := "javascript";
     version := 1;
     getText := String.list_ascii_of_string "" |}.

Definition siblingServer : LintServer :=
  {| documents := {[ "file:///work/app/util.js" := utilDocument ]};
     foldersCache := foldersCache openServer;
     configurationCache := configurationCache openServer;
     xoCache := xoCache openServer;
     documentFixes := documentFixes openServer;
     hasShownResolutionError := false;
     currentDebounce := 0;
     lintDocumentDebounced := {| wait := 0; maxWait := 350 |} |}.

End ServerScripts.

(** * Further properties of the handlers *)

Module ServerMore.
Import Server.

Section Properties.
Context `{Collaborators}.

Ltac run :=
  unfold getDocumentConfig, getDocumentFixes, getLintResults, lintDocuments,
    callLintDocumentDebounced, sendDiagnostics, computeKey, codeActionsBuild,
    applyEdits, log, logError, call, resolve, reject, settle, tryCatch,
    emit, this, setServer, complete, request, mbind, M_bind, mret, M_ret;
  cbn.

(** Follows a run through every branch: the guards and the results of the
    collaborators are split in the order the task meets them, and the diff
    is replaced by the result its loops are known to give. *)
Ltac branch :=
  match goal with
  | |- context [context_diagnostics ?p] =>
      destruct (context_diagnostics p) as [|? ?] eqn:?
  | |- context [isCancellationRequested ?t] =>
      destruct (isCancellationRequested t) eqn:?
  | |- context [truthy ?u] => destruct (truthy u) eqn:?
  | |- context [getDocumentConfigImpl ?s ?d] =>
      destruct (getDocumentConfigImpl s d) as [? [?|?]] eqn:?
  | |- context [formatEnabled ?c] => destruct (formatEnabled c) eqn:?
  | |- context [getDocumentFixesImpl ?s ?u] =>
      destruct (getDocumentFixesImpl s u) as [? [?|?]] eqn:?
  | |- context [applyEditsImpl ?d ?e] =>
      destruct (applyEditsImpl d e) as [?|?] eqn:?
  | |- context [getLintResultsImpl ?s ?d ?c ?f] =>
      destruct (getLintResultsImpl s d c f) as [? [?|?]] eqn:?
  | |- context [lintDocumentDebouncedImpl ?f ?s ?d] =>
      destruct (lintDocumentDebouncedImpl f s d) as [? [?|?]] eqn:?
  | |- context [codeActionsBuildImpl ?d ?e ?t] =>
      destruct (codeActionsBuildImpl d e t) as [?|?] eqn:?
  | |- context [results ?r] => destruct (results r) as [|? ?] eqn:?
  | |- context [output ?r] => destruct (output r) as [?|] eqn:?
  | |- context [instanceofError ?e] => destruct (instanceofError e) eqn:?
  | |- context [Diff.diff ?a ?b] =>
      let Hrun := fresh "Hdiff" in
      destruct (DiffSpec.diff_runs a b) as (? & ? & Hrun & _); rewrite Hrun
  | |- context [bool_decide ?P] => destruct (bool_decide P) eqn:?
  | |- context [getObject ?m ?k] => destruct (getObject m k) eqn:?
  | |- context [@lookup _ _ (gmap _ _) _ ?k ?m] => destruct (m !! k) eqn:?
  | |- context [@lookup _ _ TextDocuments _ ?k ?m] => destruct (m !! k) eqn:?
  | |- context [match ?x with _ => _ end] => is_var x; destruct x
  end.

Ltac branches := repeat (cbn; branch); cbn.

(** X7 (the formatting promise settles exactly for open documents).  The
    promise of a formatting request is left pending if and only if the
    document is not open: for an open document every path of the task,
    whatever the collaborators return or throw, ends in [resolve] or
    [reject]. *)
Theorem formatting_pending_iff_closed (s : LintServer)
    (params : DocumentFormattingParams) (token : CancellationToken) :
  promise (handleDocumentFormattingRequest params token (request s)).1 = Pending
  <-> isDocumentOpen s (textDocument params) = false.
Proof.
  unfold handleDocumentFormattingRequest, experimentalReplace. run.
  destruct (isDocumentOpen s (textDocument params)); cbn; [|done].
  split; [|done]. branches; done.
Qed.

(** X8 (a cancelled formatting request does no work).  When cancellation
    is requested at the start of the task, no collaborator is called and
    the server is left as it was; the promise is rejected with the
    request-cancelled error if the document is open. *)
Theorem formatting_cancelled_does_no_work (s : LintServer)
    (params : DocumentFormattingParams) (token : CancellationToken) :
  isCancellationRequested token = true ->
  handleDocumentFormattingRequest params token (request s)
    = ({| server := s; trace := [];
          promise := if isDocumentOpen s (textDocument params)
                     then Rejected (ResponseError RequestCancelled "Request was cancelled")
                     else Pending |},
       Normal tt).
Proof.
  intros Hcancelled. unfold handleDocumentFormattingRequest. run.
  destruct (isDocumentOpen s (textDocument params)); cbn; [|done].
  by rewrite Hcancelled.
Qed.

(** X9 (formatting without fixes).  For an open document with formatting
    enabled, when [getDocumentFixes] returns nothing the promise resolves
    with the empty edit list right away: the edits are not applied and the
    linter is not run again. *)
Theorem formatting_without_fixes (s s1 s2 : LintServer)
    (params : DocumentFormattingParams) (token : CancellationToken)
    (config : option XoConfig) :
  isDocumentOpen s (textDocument params) = true ->
  isCancellationRequested token = false ->
  getDocumentConfigImpl s (textDocument params) = (s1, Normal config) ->
  formatEnabled config = true ->
  getDocumentFixesImpl s1 (identifier_uri (textDocument params)) = (s2, Normal None) ->
  handleDocumentFormattingRequest params token (request s)
    = ({| server := s2;
          trace := [CallGetDocumentConfig (textDocument params);
                    CallGetDocumentFixes (identifier_uri (textDocument params))];
          promise := Resolved [] |},
       Normal tt).
Proof.
  intros Hopen Hnot Hconfig Henabled Hfixes.
  destruct (ServerSpec.isDocumentOpen_true _ _ Hopen) as [cached Hcached].
  unfold handleDocumentFormattingRequest. run.
  rewrite Hopen, Hnot, Hcached. cbn. rewrite Hconfig. cbn.
  rewrite Henabled. cbn. rewrite Hfixes. done.
Qed.

Lemma clone_textDocument (d : TextDocument) :
  {| uri := uri d; languageId := languageId d; version := version d;
     getText := getText d |} = d.
Proof. by destruct d. Qed.

Section FormattingRun.

(** A formatting run that reaches the linter: the document is open, the
    request is not cancelled, formatting is enabled, there are fixes, and
    [live] is the state the document object is in when [getDocumentFixes]
    has returned; the fixes apply to it, and the linter reports on the
    edited content. *)
Variables (s s1 s2 s3 : LintServer).
Variables (params : DocumentFormattingParams) (token : CancellationToken).
Variables (cachedTextDocument : nat) (live : TextDocument).
Variables (config : option XoConfig) (fixes : DocumentFixes).
Variables (editedContent : list CodeUnit) (report : Report).
Variables (result0 : LintResult) (rest : list LintResult).

Hypothesis Hopen : isDocumentOpen s (textDocument params) = true.
Hypothesis Hcached :
  getObject (documents s) (identifier_uri (textDocument params)) = Some cachedTextDocument.
Hypothesis Hnot : isCancellationRequested token = false.
Hypothesis Hconfig : getDocumentConfigImpl s (textDocument params) = (s1, Normal config).
Hypothesis Henabled : formatEnabled config = true.
Hypothesis Hfixes :
  getDocumentFixesImpl s1 (identifier_uri (textDocument params)) = (s2, Normal (Some fixes)).
Hypothesis Hlive : object (documents s2) cachedTextDocument = live.
Hypothesis Hedit : applyEditsImpl live (edits fixes) = Normal editedContent.
Hypothesis Hlint :
  getLintResultsImpl s2 live editedContent true = (s3, Normal report).
Hypothesis Hresults : results report = result0 :: rest.

Ltac reach_linter :=
  unfold handleDocumentFormattingRequest, experimentalReplace; run;
  rewrite Hopen, Hnot, Hcached; cbn; rewrite Hconfig; cbn;
  rewrite Henabled; cbn; rewrite Hfixes; cbn;
  rewrite Hlive, clone_textDocument, Hedit; cbn; rewrite Hlint; cbn;
  rewrite Hresults; cbn.

(** X10 (the fix edits are returned verbatim).  The edits are applied to,
    and the linter is run on, a copy of the document object as it is after
    the await of [getDocumentFixes], not as it was when the task started.
    When the linter's output for the edited content is absent, empty, or
    equal to the edited content, the promise resolves with the edits of
    [getDocumentFixes] unchanged, and nothing is logged. *)
Theorem formatting_returns_fixes_verbatim :
  output result0 = None \/ output result0 = Some []
    \/ output result0 = Some editedContent ->
  handleDocumentFormattingRequest params token (request s)
    = ({| server := s3;
          trace := [CallGetDocumentConfig (textDocument params);
                    CallGetDocumentFixes (identifier_uri (textDocument params));
                    CallApplyEdits live (edits fixes);
                    CallGetLintResults live editedContent true];
          promise := Resolved (edits fixes) |},
       Normal tt).
Proof.
  intros Houtput. reach_linter.
  destruct Houtput as [->|[->| ->]]; [done| |].
  - by rewrite (bool_decide_eq_false_2 ([] ≠ [])) by (by intros Hne; apply Hne).
  - rewrite (bool_decide_eq_false_2 (editedContent ≠ editedContent))
      by (by intros Hne; apply Hne).
    by rewrite andb_false_r.
Qed.

(** X11 (the reconciling edit).  When the linter's output [string1] is
    non-empty and differs from the edited content, the handler logs and
    resolves with exactly one edit.  Its new text and its two offsets are
    those of the diff of the text the document object had after the await
    of [getDocumentFixes] against [string1]; its range runs between the
    positions [positionAt] gives for those offsets in the object as it is
    after the await of [getLintResults].  The fix edits themselves are not
    returned. *)
Theorem formatting_reconciles_with_one_edit (string1 : list CodeUnit) :
  output result0 = Some string1 ->
  string1 ≠ [] ->
  string1 ≠ editedContent ->
  exists d,
    Diff.diff (getText live) string1 = Some d
    /\ handleDocumentFormattingRequest params token (request s)
       = ({| server := s3;
             trace := [CallGetDocumentConfig (textDocument params);
                       CallGetDocumentFixes (identifier_uri (textDocument params));
                       CallApplyEdits live (edits fixes);
                       CallGetLintResults live editedContent true;
                       CallLog "Experimental replace triggered"];
             promise :=
               Resolved [ {| range :=
                               {| range_start :=
                                    positionAt (object (documents s3) cachedTextDocument)
                                               (Diff.startOffset d);
                                  range_end :=
                                    positionAt (object (documents s3) cachedTextDocument)
                                               (Diff.endOffset d) |};
                             newText := Diff.newText d |} ] |},
          Normal tt).
Proof.
  intros Houtput Hnonempty Hdiffers.
  destruct (DiffSpec.diff_runs (getText live) string1) as (i & j & Hrun & _).
  eexists. split; [exact Hrun|].
  reach_linter. rewrite Houtput.
  rewrite !bool_decide_eq_true_2 by done. cbn. by rewrite Hrun.
Qed.

End FormattingRun.

(** X29 (the edit reaches the output when its positions are exact).  Let
    [d] be the diff of the original [A] against the output [B], and let the
    edit be built as at lines 329-333, with the positions of the two
    offsets of [d].  If converting each of the two positions back gives
    the offset it came from, applying the edit to [A] gives exactly [B]. *)
Theorem edit_reaches_output_when_positions_are_exact
    (toPosition : Z -> Position) (offsetAt : Position -> Z) (A B : list CodeUnit) :
  exists d,
    Diff.diff A B = Some d
    /\ (offsetAt (toPosition (Diff.startOffset d)) = Diff.startOffset d ->
        offsetAt (toPosition (Diff.endOffset d)) = Diff.endOffset d ->
        applyTextEdit offsetAt A
          {| range := {| range_start := toPosition (Diff.startOffset d);
                         range_end := toPosition (Diff.endOffset d) |};
             newText := Diff.newText d |} = B).
Proof.
  destruct (DiffSpec.diff_runs A B) as (i & j & Hrun & _).
  eexists. split; [exact Hrun|]. intros Hstart Hend.
  unfold applyTextEdit. cbn [range range_start range_end newText].
  rewrite Hstart, Hend. by apply DiffMore.splice_of_diff.
Qed.

(** X12 (rejections of the formatting request are logged).  When a
    formatting request that was not cancelled is rejected, the reason is
    passed to [logError] as the last call of the task if it is an [Error];
    if it is not, [logError] is not called at all. *)
Theorem formatting_rejection_is_logged (s : LintServer)
    (params : DocumentFormattingParams) (token : CancellationToken) (error : JsError) :
  let w' := (handleDocumentFormattingRequest params token (request s)).1 in
  isCancellationRequested token = false ->
  promise w' = Rejected error ->
  if instanceofError error
  then last (trace w') = Some (CallLogError error)
  else Forall (fun e => match e with CallLogError _ => False | _ => True end) (trace w').
Proof.
  cbn zeta. unfold handleDocumentFormattingRequest, experimentalReplace. run.
  intros Hnot. rewrite Hnot.
  destruct (isDocumentOpen s (textDocument params)); cbn; [|done].
  branches; intros [= <-];
    repeat match goal with
           | Herr : instanceofError _ = _ |- _ => rewrite Herr
           end;
    try done; try congruence; repeat constructor.
Qed.

(** X26 (the formatting handler writes no state).  The task itself never
    assigns to the server: when the three collaborators bound to the server
    leave it as it is, the server after a formatting request is the server
    before it, on every path. *)
Theorem formatting_writes_no_state (s : LintServer)
    (params : DocumentFormattingParams) (token : CancellationToken) :
  (forall s0 textDocument, (getDocumentConfigImpl s0 textDocument).1 = s0) ->
  (forall s0 uri, (getDocumentFixesImpl s0 uri).1 = s0) ->
  (forall s0 textDocument contents forceFix,
     (getLintResultsImpl s0 textDocument contents forceFix).1 = s0) ->
  server (handleDocumentFormattingRequest params token (request s)).1 = s.
Proof.
  intros Hconfig Hfixes Hlint.
  unfold handleDocumentFormattingRequest, experimentalReplace. run.
  destruct (isDocumentOpen s (textDocument params)); cbn; [|done].
  branches;
    repeat match goal with
           | Heq : getDocumentConfigImpl ?x ?d = (_, _) |- _ =>
               let E := fresh "E" in
               pose proof (Hconfig x d) as E; rewrite Heq in E; cbn in E; clear Heq
           | Heq : getDocumentFixesImpl ?x ?u = (_, _) |- _ =>
               let E := fresh "E" in
               pose proof (Hfixes x u) as E; rewrite Heq in E; cbn in E; clear Heq
           | Heq : getLintResultsImpl ?x ?d ?c ?f = (_, _) |- _ =>
               let E := fresh "E" in
               pose proof (Hlint x d c f) as E; rewrite Heq in E; cbn in E; clear Heq
           end;
    congruence.
Qed.

(** *** The all-fixes request *)

(** X13 (the all-fixes request always settles).  The task makes exactly
    one call, to [getDocumentFixes]; the promise resolves with what that
    call returns (fixes or nothing) and is rejected with what it throws.
    The configuration is never read and nothing is logged. *)
Theorem all_fixes_always_settles (s : LintServer) (uri : string) :
  handleAllFixesRequest uri (request s)
    = (let (s', c) := getDocumentFixesImpl s uri in
       ({| server := s';
           trace := [CallGetDocumentFixes uri];
           promise := match c with
                      | Normal fixes => Resolved fixes
                      | Throw error => Rejected error
                      end |},
        Normal tt)).
Proof.
  unfold handleAllFixesRequest. run.
  by destruct (getDocumentFixesImpl s uri) as [s' [[fixes|]|error]].
Qed.

(** *** The code-action request *)

(** X14 (code actions settle and only read).  For every code-action
    request the promise is settled when the task ends, and the server is
    exactly as it was before: the handler writes to no cache. *)
Theorem code_action_settles_and_only_reads (s : LintServer) (params : CodeActionParams)
    (token : CancellationToken) :
  let w' := (handleCodeActionRequest params token (request s)).1 in
  promise w' ≠ Pending /\ server w' = s.
Proof.
  cbn zeta. unfold handleCodeActionRequest. run. branches; done.
Qed.

(** X15 (the guards before the cancellation check).  A code-action
    request without diagnostics, or whose URI is empty, resolves with the
    empty list without any call, also when cancellation has been
    requested: both guards come before the cancellation check. *)
Theorem code_action_guards_precede_cancellation (s : LintServer)
    (params : CodeActionParams) (token : CancellationToken) :
  context_diagnostics params = []
    \/ identifier_uri (codeAction_textDocument params) = "" ->
  handleCodeActionRequest params token (request s)
    = ({| server := s; trace := []; promise := Resolved [] |}, Normal tt).
Proof.
  intros Hguard. unfold handleCodeActionRequest. run.
  destruct (context_diagnostics params) as [|diagnostic rest]; [done|].
  destruct Hguard as [?|Hempty]; [done|]. by rewrite Hempty.
Qed.

(** X16 (no code action for a closed or unlinted document).  When the
    request is not cancelled and the document is not open, or has no fix
    map, the promise resolves with the empty list and no code action is
    built; without a fix map no fix key is computed either. *)
Theorem code_action_needs_document_and_fixes (s : LintServer) (params : CodeActionParams)
    (token : CancellationToken) :
  let uri := identifier_uri (codeAction_textDocument params) in
  let w' := (handleCodeActionRequest params token (request s)).1 in
  isCancellationRequested token = false ->
  documents s !! uri = None \/ documentFixes s !! uri = None ->
  promise w' = Resolved []
  /\ Forall (fun e => match e with CallCodeActionsBuild _ _ _ => False | _ => True end)
            (trace w')
  /\ (documentFixes s !! uri = None -> trace w' = []).
Proof.
  cbn zeta. intros Hnot Hmissing. unfold handleCodeActionRequest. run.
  rewrite Hnot.
  branches; repeat split; try intros ?;
    first [done | congruence | by (destruct Hmissing; congruence) | repeat constructor].
Qed.

(** X17 (rejections of the code-action request).  When a code-action
    request that was not cancelled is rejected, the reason was thrown by
    the building of the action for the first diagnostic; it is passed to
    [logError] as the last call if it is an [Error], and not logged if it
    is not. *)
Theorem code_action_rejection_is_logged (s : LintServer) (params : CodeActionParams)
    (token : CancellationToken) (error : JsError) :
  let w' := (handleCodeActionRequest params token (request s)).1 in
  isCancellationRequested token = false ->
  promise w' = Rejected error ->
  (exists diagnostic rest edit textDocument,
     context_diagnostics params = diagnostic :: rest
     /\ codeActionsBuildImpl diagnostic edit textDocument = Throw error)
  /\ (if instanceofError error
      then last (trace w') = Some (CallLogError error)
      else Forall (fun e => match e with CallLogError _ => False | _ => True end)
                  (trace w')).
Proof.
  cbn zeta. unfold handleCodeActionRequest. run.
  intros Hnot. rewrite Hnot.
  branches; intros [= <-];
    repeat match goal with
           | Herr : instanceofError _ = _ |- _ => rewrite Herr
           end;
    try done; try congruence;
    (split; [by repeat eexists|repeat constructor]).
Qed.

(** *** The document-changed notification *)

(** X18 (the change task never fails).  Whatever the debounced lint does,
    the task pushed for a change notification completes normally: a thrown
    value is caught, so the queue never sees this task reject. *)
Theorem change_task_never_throws {R : Type} (event : TextDocumentChangeEvent)
    (w : World R) :
  (handleDocumentsOnDidChangeContent event w).2 = Normal tt
  /\ promise (handleDocumentsOnDidChangeContent event w).1 = promise w.
Proof.
  unfold handleDocumentsOnDidChangeContent. run.
  branches; repeat match goal with a : unit |- _ => destruct a end; done.
Qed.

(** X19 (a current version is linted once).  When the version of the
    event's document is the version tracked for its URI, the task calls the
    debounced lint exactly once, on the event's document and through the
    debounced instance the server holds at that time; an [Error] it throws
    is logged, and that is all the task does. *)
Theorem current_change_is_linted_once {R : Type} (event : TextDocumentChangeEvent)
    (w : World R) :
  Some (version (document event))
    = (version <$> documents (server w) !! uri (document event)) ->
  (handleDocumentsOnDidChangeContent event w).1
    = (let (s', c) := lintDocumentDebouncedImpl (lintDocumentDebounced (server w))
                        (server w) (document event) in
       {| server := s';
          trace := trace w
                     ++ CallLintDocumentDebounced (document event)
                        :: match c with
                           | Throw error =>
                               if instanceofError error then [CallLogError error] else []
                           | Normal _ => []
                           end;
          promise := promise w |}).
Proof.
  intros Hcurrent. unfold handleDocumentsOnDidChangeContent. run.
  rewrite bool_decide_eq_false_2 by (by intros Hne; apply Hne).
  destruct lintDocumentDebouncedImpl as [s' [[]|error]]; cbn; [done|].
  destruct (instanceofError error); cbn; [|done].
  by rewrite <- app_assoc.
Qed.

(** *** The configuration-changed notification *)

(** X20 (the debounce value and the debounced instance stay in step).  If
    [currentDebounce] is the wait of the stored debounced instance and its
    [maxWait] is 350, as the constructor leaves them, the same holds in the
    state in which the configuration handler calls [lintDocuments]. *)
Theorem configuration_change_keeps_debounce_in_step {R : Type}
    (params : ChangeConfigurationParams) (w : World R) :
  wait (lintDocumentDebounced (server w)) = currentDebounce (server w) ->
  maxWait (lintDocumentDebounced (server w)) = 350 ->
  exists s1,
    wait (lintDocumentDebounced s1) = currentDebounce s1
    /\ maxWait (lintDocumentDebounced s1) = 350
    /\ handleDidChangeConfiguration params w
       = (let (s2, c) := lintDocumentsImpl s1 (documentsAll (server w)) in
          ({| server := s2;
              trace := trace w ++ [CallLintDocuments (documentsAll (server w))];
              promise := promise w |}, c)).
Proof.
  intros Hwait Hmax.
  exists (clearConfigurationCache (updateDebounce params (server w))).
  assert (documents (updateDebounce params (server w)) = documents (server w)) as Hdocs.
  { unfold updateDebounce. destruct (Number _); [case_bool_decide|]; done. }
  split; [|split].
  - unfold updateDebounce. destruct (Number _); [case_bool_decide|]; done.
  - unfold updateDebounce. destruct (Number _); [case_bool_decide|]; done.
  - unfold handleDidChangeConfiguration. run.
    unfold documentsAll at 1 2. cbn. rewrite Hdocs.
    by destruct lintDocumentsImpl.
Qed.

(** X21 (no new debounce, no new instance).  When the notification carries
    no debounce, one that is not an integer, or the integer that is already
    current, the handler keeps [currentDebounce] and the debounced instance
    it has: pending calls of that instance are not orphaned. *)
Theorem configuration_change_without_new_debounce {R : Type}
    (params : ChangeConfigurationParams) (w : World R) :
  debounce (settings_xo params) = None
    \/ debounce (settings_xo params) = Some JsNonInteger
    \/ debounce (settings_xo params) = Some (JsInteger (currentDebounce (server w))) ->
  exists s1,
    currentDebounce s1 = currentDebounce (server w)
    /\ lintDocumentDebounced s1 = lintDocumentDebounced (server w)
    /\ handleDidChangeConfiguration params w
       = (let (s2, c) := lintDocumentsImpl s1 (documentsAll (server w)) in
          ({| server := s2;
              trace := trace w ++ [CallLintDocuments (documentsAll (server w))];
              promise := promise w |}, c)).
Proof.
  intros Hsame.
  exists (clearConfigurationCache (updateDebounce params (server w))).
  assert (updateDebounce params (server w) = server w) as Hkept.
  { unfold updateDebounce. destruct Hsame as [->|[->| ->]]; cbn; [done..|].
    by rewrite bool_decide_eq_false_2 by (by intros Hne; apply Hne). }
  rewrite Hkept. repeat split.
  unfold handleDidChangeConfiguration. run. rewrite Hkept.
  by destruct lintDocumentsImpl.
Qed.

(** X27 (a configuration change with nothing to reset).  On a server
    whose configuration cache is empty, a configuration notification that
    brings no new debounce does exactly what a watched-files notification
    does: one call of [lintDocuments] on all open documents, from the same
    state. *)
Theorem configuration_change_as_watched_files {R : Type}
    (params : ChangeConfigurationParams) (w : World R) :
  configurationCache (server w) = ∅ ->
  debounce (settings_xo params) = None
    \/ debounce (settings_xo params) = Some JsNonInteger
    \/ debounce (settings_xo params) = Some (JsInteger (currentDebounce (server w))) ->
  handleDidChangeConfiguration params w = handleDidChangeWatchedFiles w.
Proof.
  intros Hempty Hsame.
  assert (updateDebounce params (server w) = server w) as Hkept.
  { unfold updateDebounce. destruct Hsame as [->|[->| ->]]; cbn; [done..|].
    by rewrite bool_decide_eq_false_2 by (by intros Hne; apply Hne). }
  unfold handleDidChangeConfiguration, handleDidChangeWatchedFiles. run.
  rewrite Hkept. destruct w as [s tr p]; cbn in *. destruct s; cbn in *.
  by rewrite Hempty.
Qed.

(** *** The close handler *)

Lemma foldl_evictFolder_frame (folders : gset string) (l : list string) (s : LintServer) :
  let s' := foldl (evictFolder folders) s l in
  documents s' = documents s
  /\ documentFixes s' = documentFixes s
  /\ hasShownResolutionError s' = hasShownResolutionError s
  /\ currentDebounce s' = currentDebounce s
  /\ lintDocumentDebounced s' = lintDocumentDebounced s.
Proof.
  revert s. induction l as [|folder l IH]; intros s; cbn [foldl]; [done|].
  destruct (IH (evictFolder folders s folder)) as (-> & -> & -> & -> & ->).
  apply ServerSpec.evictFolder_frame.
Qed.

Lemma foldl_evictFolder_open (folders : gset string) (l : list string) (s : LintServer) :
  (forall k, k ∈ l -> k ∈ folders) -> foldl (evictFolder folders) s l = s.
Proof.
  induction l as [|folder l IH]; intros Hopen; cbn [foldl]; [done|].
  unfold evictFolder at 2. rewrite decide_True by (apply Hopen; left).
  apply IH. intros k Hk. apply Hopen. by right.
Qed.

(** X22 (open folders keep their entries).  For the [path.dirname] of
    every open document's URI, the close handler leaves the entries of the
    three folder caches as they were. *)
Theorem close_keeps_open_folders {R : Type} (event : TextDocumentChangeEvent)
    (w : World R) (openDocument : TextDocument) :
  openDocument ∈ documentsAll (server w) ->
  let folder := dirname (uri openDocument) in
  let s := server w in
  let s' := server (handleDocumentsOnDidClose event w).1 in
  foldersCache s' !! folder = foldersCache s !! folder
  /\ xoCache s' !! folder = xoCache s !! folder
  /\ configurationCache s' !! folder = configurationCache s !! folder.
Proof.
  intros Hopen. cbn zeta. rewrite ServerSpec.handleDocumentsOnDidClose_server.
  destruct (ServerSpec.evictFolders_spec (server w)) as [_ Hk].
  specialize (Hk (dirname (uri openDocument))). cbn zeta in Hk.
  rewrite bool_decide_eq_false_2 in Hk; [done|].
  intros [_ Hnot]. apply Hnot. apply ServerSpec.elem_of_openFolders. by exists openDocument.
Qed.

(** X23 (the close handler only removes).  Each of the three folder caches
    after the handler is a sub-map of what it was: no entry is added and no
    value is changed.  The open documents, the fix map, the resolution-error
    flag and the debounce state are untouched. *)
Theorem close_only_removes {R : Type} (event : TextDocumentChangeEvent) (w : World R) :
  let s := server w in
  let s' := server (handleDocumentsOnDidClose event w).1 in
  (foldersCache s' ⊆ foldersCache s
   /\ xoCache s' ⊆ xoCache s
   /\ configurationCache s' ⊆ configurationCache s)
  /\ documents s' = documents s
  /\ documentFixes s' = documentFixes s
  /\ hasShownResolutionError s' = hasShownResolutionError s
  /\ currentDebounce s' = currentDebounce s
  /\ lintDocumentDebounced s' = lintDocumentDebounced s.
Proof.
  cbn zeta. rewrite ServerSpec.handleDocumentsOnDidClose_server.
  split; [|apply foldl_evictFolder_frame].
  destruct (ServerSpec.evictFolders_spec (server w)) as [_ Hk].
  repeat split; apply map_subseteq_spec; intros k v;
    destruct (Hk k) as (Hf & Hx & Hc);
    [rewrite Hf|rewrite Hx|rewrite Hc]; by case_bool_decide.
Qed.

(** X24 (nothing to evict).  When every key of [foldersCache] is the
    [path.dirname] of an open document's URI, as when one of two documents
    of a folder is closed, the close handler leaves the server as it is. *)
Theorem close_with_all_folders_open {R : Type} (event : TextDocumentChangeEvent)
    (w : World R) :
  (forall folder,
     is_Some (foldersCache (server w) !! folder) ->
     exists document,
       document ∈ documentsAll (server w) /\ folder = dirname (uri document)) ->
  server (handleDocumentsOnDidClose event w).1 = server w.
Proof.
  intros Hopen. rewrite ServerSpec.handleDocumentsOnDidClose_server.
  apply foldl_evictFolder_open. intros k Hk.
  apply ServerSpec.elem_of_openFolders, Hopen. by apply ServerSpec.elem_of_keys.
Qed.

(** X25 (closing is idempotent).  A second close event, with no document
    opened in between, changes nothing: what the first run of the handler
    left has only open folders as keys of [foldersCache]. *)
Theorem close_twice_is_close_once {R : Type} (event event' : TextDocumentChangeEvent)
    (w : World R) :
  let w' := (handleDocumentsOnDidClose event w).1 in
  server (handleDocumentsOnDidClose event' w').1 = server w'.
Proof.
  cbn zeta. rewrite !ServerSpec.handleDocumentsOnDidClose_server.
  destruct (ServerSpec.evictFolders_spec (server w)) as [[Hdocs _] Hk].
  set (s' := evictFolders (openFolders (server w)) (server w)) in *.
  assert (openFolders s' = openFolders (server w)) as Hfolders
    by (unfold openFolders, documentsAll; by rewrite Hdocs).
  apply foldl_evictFolder_open. intros k Hin.
  apply ServerSpec.elem_of_keys in Hin. rewrite Hfolders.
  destruct (Hk k) as (Hf & _ & _). rewrite Hf in Hin.
  case_bool_decide as Hgone; [by destruct Hin|].
  destruct (decide (k ∈ openFolders (server w))); [done|].
  exfalso. by apply Hgone.
Qed.

End Properties.

(** ** The further properties on the concrete server *)

Import ServerScripts.

#[local] Existing Instance sampleCarriers.

Lemma formatting_cancelled_does_no_work_witness :
  isCancellationRequested cancelled = true
  /\ @handleDocumentFormattingRequest _ sampleCollaborators formatIndex cancelled
       (request formattingServer)
     = ({| server := formattingServer; trace := [];
           promise := Rejected (ResponseError RequestCancelled "Request was cancelled") |},
        Normal tt).
Proof.
  split; [reflexivity|].
  exact (@formatting_cancelled_does_no_work _ sampleCollaborators formattingServer
           formatIndex cancelled eq_refl).
Defined.

Lemma formatting_without_fixes_witness :
  (isDocumentOpen formattingServer (textDocument formatIndex) = true
   /\ isCancellationRequested notCancelled = false
   /\ @getDocumentConfigImpl _ sampleCollaborators formattingServer (textDocument formatIndex)
      = (formattingServer, Normal (Some formatOn))
   /\ formatEnabled (Some formatOn) = true
   /\ @getDocumentFixesImpl _ sampleCollaborators formattingServer indexUri
      = (formattingServer, Normal None))
  /\ promise (@handleDocumentFormattingRequest _ sampleCollaborators formatIndex notCancelled
                (request formattingServer)).1 = Resolved [].
Proof.
  assert (isDocumentOpen formattingServer (textDocument formatIndex) = true) as Hopen
    by (vm_compute; reflexivity).
  assert (@getDocumentConfigImpl _ sampleCollaborators formattingServer
            (textDocument formatIndex)
          = (formattingServer, Normal (Some formatOn))) as Hconfig
    by (vm_compute; reflexivity).
  split; [by repeat split|].
  by rewrite (@formatting_without_fixes _ sampleCollaborators formattingServer
                formattingServer formattingServer formatIndex notCancelled
                (Some formatOn) Hopen eq_refl Hconfig eq_refl eq_refl).
Defined.

(** The hypotheses of a run that reaches the linter, for collaborators
    scripted to return the semicolon fix, the edited content ["let a;"] and
    a report with the output [text]. *)
Lemma formatting_run_reaches_linter (built : Completion (list (string * string)))
    (linted : Completion unit) (text : string) :
  let c := scripted (Some semicolonFix) (Normal (String.list_ascii_of_string "let a;"))
             (Normal (reportOf text)) built linted in
  isDocumentOpen formattingServer (textDocument formatIndex) = true
  /\ getObject (documents formattingServer) (identifier_uri (textDocument formatIndex))
     = Some 0%nat
  /\ @getDocumentConfigImpl _ c formattingServer (textDocument formatIndex)
     = (formattingServer, Normal (Some formatOn))
  /\ @getDocumentFixesImpl _ c formattingServer (identifier_uri (textDocument formatIndex))
     = (formattingServer, Normal (Some semicolonFix))
  /\ object (documents formattingServer) 0%nat = indexDocument
  /\ @applyEditsImpl _ c indexDocument (edits semicolonFix)
     = Normal (String.list_ascii_of_string "let a;")
  /\ @getLintResultsImpl _ c formattingServer indexDocument
       (String.list_ascii_of_string "let a;") true
     = (formattingServer, Normal (reportOf text)).
Proof.
  cbn zeta. repeat split; try reflexivity; vm_compute; reflexivity.
Defined.

Lemma formatting_returns_fixes_verbatim_witness :
  output {| output := Some (String.list_ascii_of_string "let a;") |}
    = Some (String.list_ascii_of_string "let a;")
  /\ @handleDocumentFormattingRequest _ agreeing formatIndex notCancelled
       (request formattingServer)
     = ({| server := formattingServer;
           trace := [CallGetDocumentConfig (textDocument formatIndex);
                     CallGetDocumentFixes indexUri;
                     CallApplyEdits indexDocument (edits semicolonFix);
                     CallGetLintResults indexDocument
                       (String.list_ascii_of_string "let a;") true];
           promise := Resolved (edits semicolonFix) |},
        Normal tt).
Proof.
  split; [reflexivity|].
  destruct (formatting_run_reaches_linter (Normal []) (Normal tt) "let a;")
    as (Hopen & Hcached & Hconfig & Hfixes & Hlive & Hedit & Hlint).
  exact (@formatting_returns_fixes_verbatim _ agreeing formattingServer formattingServer
           formattingServer formattingServer formatIndex notCancelled 0%nat indexDocument
           (Some formatOn) semicolonFix (String.list_ascii_of_string "let a;")
           (reportOf "let a;") _ [] Hopen Hcached eq_refl Hconfig eq_refl Hfixes Hlive
           Hedit Hlint eq_refl (or_intror (or_intror eq_refl))).
Defined.

(** index.js is ["let a"] (version 3) when the request starts and ["let ab"]
    (version 4) when [getDocumentFixes] returns.  The fix is applied to
    version 4 and gives ["let ab;"]; the linter's own output is
    ["let abc;"]; the single edit inserts ["c;"] at offset 6 of version 4. *)
Lemma formatting_reconciles_with_one_edit_witness :
  (isDocumentOpen formattingServer (textDocument formatIndex) = true
   /\ object (documents formattingServer) 0%nat = indexDocument
   /\ object (documents (typedInto formattingServer)) 0%nat = indexDocumentTyped
   /\ String.list_ascii_of_string "let abc;" ≠ []
   /\ String.list_ascii_of_string "let abc;" ≠ String.list_ascii_of_string "let ab;")
  /\ exists d,
       Diff.diff (getText indexDocumentTyped) (String.list_ascii_of_string "let abc;")
         = Some d
       /\ d = {| Diff.startOffset := 6; Diff.endOffset := 6;
                 Diff.newText := String.list_ascii_of_string "c;" |}
       /\ @handleDocumentFormattingRequest _ typing formatIndex notCancelled
            (request formattingServer)
          = ({| server := typedInto formattingServer;
                trace := [CallGetDocumentConfig (textDocument formatIndex);
                          CallGetDocumentFixes indexUri;
                          CallApplyEdits indexDocumentTyped (edits semicolonFix);
                          CallGetLintResults indexDocumentTyped
                            (String.list_ascii_of_string "let ab;") true;
                          CallLog "Experimental replace triggered"];
                promise :=
                  Resolved [ {| range := {| range_start := {| line := 0; character := 6 |};
                                            range_end := {| line := 0; character := 6 |} |};
                                newText := String.list_ascii_of_string "c;" |} ] |},
             Normal tt).
Proof.
  assert (isDocumentOpen formattingServer (textDocument formatIndex) = true) as Hopen
    by (vm_compute; reflexivity).
  assert (String.list_ascii_of_string "let abc;" ≠ []) as Hnonempty
    by (vm_compute; discriminate).
  assert (String.list_ascii_of_string "let abc;" ≠ String.list_ascii_of_string "let ab;")
    as Hdiffers by (vm_compute; discriminate).
  split; [by repeat split|].
  destruct (@formatting_reconciles_with_one_edit _ typing formattingServer
              formattingServer (typedInto formattingServer) (typedInto formattingServer)
              formatIndex notCancelled 0%nat indexDocumentTyped (Some formatOn)
              semicolonFix (String.list_ascii_of_string "let ab;") (reportOf "let abc;")
              _ [] Hopen eq_refl eq_refl eq_refl eq_refl eq_refl eq_refl eq_refl eq_refl
              eq_refl (String.list_ascii_of_string "let abc;") eq_refl Hnonempty Hdiffers)
    as (d & Hd & Hrun).
  assert (d = {| Diff.startOffset := 6; Diff.endOffset := 6;
                 Diff.newText := String.list_ascii_of_string "c;" |}) as Hvalue.
  { assert (Diff.diff (getText indexDocumentTyped) (String.list_ascii_of_string "let abc;")
            = Some {| Diff.startOffset := 6; Diff.endOffset := 6;
                      Diff.newText := String.list_ascii_of_string "c;" |}) as Hcomputed
      by (vm_compute; reflexivity).
    rewrite Hcomputed in Hd. by injection Hd. }
  exists d. split; [exact Hd|]. split; [exact Hvalue|].
  rewrite Hrun, Hvalue. reflexivity.
Defined.

Lemma formatting_rejection_is_logged_witness :
  let w' := (@handleDocumentFormattingRequest _ failing formatIndex notCancelled
               (request formattingServer)).1 in
  (isCancellationRequested notCancelled = false
   /\ promise w' = Rejected (OtherError "lint failed"))
  /\ last (trace w') = Some (CallLogError (OtherError "lint failed")).
Proof.
  cbn zeta.
  assert (promise (@handleDocumentFormattingRequest _ failing formatIndex notCancelled
                     (request formattingServer)).1
          = Rejected (OtherError "lint failed")) as Hrejected
    by (vm_compute; reflexivity).
  split; [by split|].
  exact (@formatting_rejection_is_logged _ failing formattingServer formatIndex
           notCancelled (OtherError "lint failed") eq_refl Hrejected).
Defined.

(** A cancelled code-action request without diagnostics is answered with
    the empty list, not rejected. *)
Lemma code_action_guards_precede_cancellation_witness :
  context_diagnostics (ServerSpec.codeActionIndex []) = []
  /\ @handleCodeActionRequest _ sampleCollaborators (ServerSpec.codeActionIndex [])
       cancelled (request openServer)
     = ({| server := openServer; trace := []; promise := Resolved [] |}, Normal tt).
Proof.
  split; [reflexivity|].
  exact (@code_action_guards_precede_cancellation _ sampleCollaborators openServer
           (ServerSpec.codeActionIndex []) cancelled (or_introl eq_refl)).
Defined.

(** index.js is closed but its fixes are still in the fix map: the key of
    the diagnostic is computed, no action is built. *)
Lemma code_action_needs_document_and_fixes_witness :
  let w' := (@handleCodeActionRequest _ sampleCollaborators
               (ServerSpec.codeActionIndex ["semi@0:5"]) notCancelled
               (request closingServer)).1 in
  (isCancellationRequested notCancelled = false
   /\ documents closingServer !! indexUri = None)
  /\ promise w' = Resolved []
  /\ trace w' = [CallComputeKey "semi@0:5"].
Proof.
  cbn zeta.
  assert (documents closingServer !! indexUri = None) as Hclosed by (by vm_compute).
  split; [by split|]. split; [|by vm_compute].
  exact (proj1 (@code_action_needs_document_and_fixes _ sampleCollaborators closingServer
                  (ServerSpec.codeActionIndex ["semi@0:5"]) notCancelled eq_refl
                  (or_introl Hclosed))).
Defined.

Lemma code_action_rejection_is_logged_witness :
  let w' := (@handleCodeActionRequest _ failing (ServerSpec.codeActionIndex ["semi@0:5"])
               notCancelled (request openServer)).1 in
  (isCancellationRequested notCancelled = false
   /\ promise w' = Rejected (OtherError "build failed"))
  /\ last (trace w') = Some (CallLogError (OtherError "build failed")).
Proof.
  cbn zeta.
  assert (promise (@handleCodeActionRequest _ failing
                     (ServerSpec.codeActionIndex ["semi@0:5"]) notCancelled
                     (request openServer)).1
          = Rejected (OtherError "build failed")) as Hrejected
    by (vm_compute; reflexivity).
  split; [by split|].
  exact (proj2 (@code_action_rejection_is_logged _ failing openServer
                  (ServerSpec.codeActionIndex ["semi@0:5"]) notCancelled
                  (OtherError "build failed") eq_refl Hrejected)).
Defined.

(** Version 3 of index.js, the tracked one, with a lint that fails. *)
Lemma current_change_is_linted_once_witness :
  let event := {| document := indexDocument |} in
  Some (version (document event))
    = (version <$> documents openServer !! uri (document event))
  /\ (@handleDocumentsOnDidChangeContent _ failing unit event (request openServer)).1
     = {| server := openServer;
          trace := [CallLintDocumentDebounced indexDocument;
                    CallLogError (OtherError "lint failed")];
          promise := Pending |}.
Proof.
  cbn zeta.
  assert (Some (version indexDocument)
          = (version <$> documents openServer !! uri indexDocument)) as Hcurrent
    by (vm_compute; reflexivity).
  split; [exact Hcurrent|].
  exact (@current_change_is_linted_once _ failing unit {| document := indexDocument |}
           (request openServer) Hcurrent).
Defined.

(** The new server receives a debounce of 200 ms. *)
Lemma configuration_change_keeps_debounce_in_step_witness :
  (wait (lintDocumentDebounced newLintServer) = currentDebounce newLintServer
   /\ maxWait (lintDocumentDebounced newLintServer) = 350)
  /\ exists s1,
       wait (lintDocumentDebounced s1) = currentDebounce s1
       /\ maxWait (lintDocumentDebounced s1) = 350
       /\ @handleDidChangeConfiguration _ sampleCollaborators unit
            {| settings_xo := formatOn |} (request newLintServer)
          = (let (s2, c) := @lintDocumentsImpl _ sampleCollaborators s1
                              (documentsAll newLintServer) in
             ({| server := s2;
                 trace := [CallLintDocuments (documentsAll newLintServer)];
                 promise := Pending |}, c)).
Proof.
  split; [by split|].
  exact (@configuration_change_keeps_debounce_in_step _ sampleCollaborators unit
           {| settings_xo := formatOn |} (request newLintServer) eq_refl eq_refl).
Defined.

(** [formatOff] carries no debounce. *)
Lemma configuration_change_without_new_debounce_witness :
  debounce (settings_xo {| settings_xo := formatOff |}) = None
  /\ exists s1,
       currentDebounce s1 = currentDebounce openServer
       /\ lintDocumentDebounced s1 = lintDocumentDebounced openServer
       /\ @handleDidChangeConfiguration _ sampleCollaborators unit
            {| settings_xo := formatOff |} (request openServer)
          = (let (s2, c) := @lintDocumentsImpl _ sampleCollaborators s1
                              (documentsAll openServer) in
             ({| server := s2;
                 trace := [CallLintDocuments (documentsAll openServer)];
                 promise := Pending |}, c)).
Proof.
  split; [reflexivity|].
  exact (@configuration_change_without_new_debounce _ sampleCollaborators unit
           {| settings_xo := formatOff |} (request openServer) (or_introl eq_refl)).
Defined.

(** index.js is closed while util.js of the same folder stays open. *)
Lemma close_keeps_open_folders_witness :
  let s' := server (@handleDocumentsOnDidClose _ sampleCollaborators unit closeIndex
                      (request siblingServer)).1 in
  utilDocument ∈ documentsAll siblingServer
  /\ foldersCache s' !! posixDirname (uri utilDocument)
     = foldersCache siblingServer !! posixDirname (uri utilDocument)
  /\ xoCache s' !! posixDirname (uri utilDocument)
     = xoCache siblingServer !! posixDirname (uri utilDocument)
  /\ configurationCache s' !! posixDirname (uri utilDocument)
     = configurationCache siblingServer !! posixDirname (uri utilDocument).
Proof.
  cbn zeta.
  assert (utilDocument ∈ documentsAll siblingServer) as Hopen
    by (vm_compute; apply list_elem_of_here).
  split; [exact Hopen|].
  exact (@close_keeps_open_folders _ sampleCollaborators unit closeIndex
           (request siblingServer) utilDocument Hopen).
Defined.

Lemma close_with_all_folders_open_witness :
  (forall folder,
     is_Some (foldersCache siblingServer !! folder) ->
     exists document,
       document ∈ documentsAll siblingServer /\ folder = posixDirname (uri document))
  /\ server (@handleDocumentsOnDidClose _ sampleCollaborators unit closeIndex
               (request siblingServer)).1 = siblingServer.
Proof.
  assert (forall folder,
            is_Some (foldersCache siblingServer !! folder) ->
            exists document,
              document ∈ documentsAll siblingServer
              /\ folder = posixDirname (uri document)) as Hopen.
  { intros folder Hcached. exists utilDocument.
    split; [vm_compute; apply list_elem_of_here|].
    destruct (decide (folder = appFolder)) as [->|Hother]; [by vm_compute|].
    exfalso. destruct Hcached as [v Hv].
    change (foldersCache siblingServer) with (foldersCache openServer) in Hv.
    unfold openServer in Hv. cbn [foldersCache] in Hv.
    by rewrite lookup_singleton_ne in Hv. }
  split; [exact Hopen|].
  exact (@close_with_all_folders_open _ sampleCollaborators unit closeIndex
           (request siblingServer) Hopen).
Defined.

Lemma formatting_writes_no_state_witness :
  ((forall s0 textDocument,
      (@getDocumentConfigImpl _ diverging s0 textDocument).1 = s0)
   /\ (forall s0 uri, (@getDocumentFixesImpl _ diverging s0 uri).1 = s0)
   /\ (forall s0 textDocument contents forceFix,
         (@getLintResultsImpl _ diverging s0 textDocument contents forceFix).1 = s0))
  /\ server (@handleDocumentFormattingRequest _ diverging formatIndex notCancelled
               (request formattingServer)).1 = formattingServer.
Proof.
  split; [by repeat split|].
  exact (@formatting_writes_no_state _ diverging formattingServer formatIndex notCancelled
           (fun _ _ => eq_refl) (fun _ _ => eq_refl) (fun _ _ _ _ => eq_refl)).
Defined.

Lemma configuration_change_as_watched_files_witness :
  (configurationCache newLintServer = ∅
   /\ debounce (settings_xo {| settings_xo := formatOff |}) = None)
  /\ @handleDidChangeConfiguration _ sampleCollaborators unit
       {| settings_xo := formatOff |} (request newLintServer)
     = @handleDidChangeWatchedFiles _ sampleCollaborators unit (request newLintServer).
Proof.
  split; [by split|].
  exact (@configuration_change_as_watched_files _ sampleCollaborators unit
           {| settings_xo := formatOff |} (request newLintServer) eq_refl
           (or_introl eq_refl)).
Defined.

(** The case of the specification, ["const x=1"] against ["const x = 1;"],
    with the positions of the text-document library: offsets 7 and 9 are
    exact, and the edit (0,7)-(0,9) gives the output. *)
Lemma edit_reaches_output_when_positions_are_exact_witness :
  (libOffsetAt constDocument (libPositionAt constDocument 7) = 7
   /\ libOffsetAt constDocument (libPositionAt constDocument 9) = 9)
  /\ applyTextEdit (libOffsetAt constDocument) (getText constDocument)
       {| range := {| range_start := {| line := 0; character := 7 |};
                      range_end := {| line := 0; character := 9 |} |};
          newText := String.list_ascii_of_string " = 1;" |} = constOutput.
Proof.
  assert (libOffsetAt constDocument (libPositionAt constDocument 7) = 7) as Hstart
    by (vm_compute; reflexivity).
  assert (libOffsetAt constDocument (libPositionAt constDocument 9) = 9) as Hend
    by (vm_compute; reflexivity).
  split; [by split|].
  destruct (edit_reaches_output_when_positions_are_exact
              (libPositionAt constDocument) (libOffsetAt constDocument)
              (getText constDocument) constOutput) as (d & Hd & Hexact).
  assert (d = {| Diff.startOffset := 7; Diff.endOffset := 9;
                 Diff.newText := String.list_ascii_of_string " = 1;" |}) as ->.
  { assert (Diff.diff (getText constDocument) constOutput
            = Some {| Diff.startOffset := 7; Diff.endOffset := 9;
                      Diff.newText := String.list_ascii_of_string " = 1;" |}) as Hcomputed
      by (vm_compute; reflexivity).
    rewrite Hcomputed in Hd. by injection Hd. }
  exact (Hexact Hstart Hend).
Defined.

End ServerMore.
